(** * node-task-manager: request handlers, document normaliser, client loader

    A shallow embedding of

    - [src/server/app.js]          (Express + MongoDB server), module [Mongo];
    - [src/unnamed/part_000]       (Express + Supabase server), module [Supabase];
    - [src/client/src/api/tasks.js] (client fetch layer), module [Client].

    JavaScript objects are finite maps from property names to values,
    exceptions are an explicit [Throw] outcome, the database is an explicit
    state threaded through every driver call, and the one place where object
    identity matters ([transformTaskDocument] copying its argument) is also
    modelled over a heap of objects. *)

From stdpp Require Import base tactics option list strings gmap fin_maps pretty.

Set Warnings "-register-all".
Open Scope Z_scope.

(** ** JavaScript values *)

(** The values that travel through the handlers: JSON data from the request,
    BSON data coming back from the driver ([ObjectId], [Date]), the objects
    handed to [res.json], and the functions and library objects that
    identifiers are bound to.  Numbers are restricted to integers. *)
Inductive value : Type :=
  | VUndef
  | VNull
  | VBool (b : bool)
  | VNum (n : Z)
  | VStr (s : string)
  | VOid (hex : string)            (* an ObjectId, by its 24 lower-case hex digits *)
  | VDate (ms : Z)                 (* a Date, by its epoch milliseconds *)
  | VArr (xs : list value)
  | VObj (fields : gmap string value)
  | VHost (name : string).         (* a function or library object, opaque *)

Abbreviation obj := (gmap string value).

(** An Error object: its constructor name and its [message]. *)
Record exn := Exn { ename : string; message : string }.

Definition TypeError (m : string) : exn := Exn "TypeError" m.
Definition ReferenceError (m : string) : exn := Exn "ReferenceError" m.
Definition BSONError (m : string) : exn := Exn "BSONError" m.
Definition DriverError (m : string) : exn := Exn "MongoError" m.
Definition Error (m : string) : exn := Exn "Error" m.

(** Result of evaluating an expression that may throw. *)
Inductive outcome (A : Type) : Type :=
  | Ok (a : A)
  | Throw (e : exn).
Arguments Ok {A} a.
Arguments Throw {A} e.

Definition obind {A B} (m : outcome A) (k : A → outcome B) : outcome B :=
  match m with
  | Ok a => k a
  | Throw e => Throw e
  end.

(** [ToBoolean]: what [!x] and [x || y] look at. *)
Definition truthy (v : value) : bool :=
  match v with
  | VUndef | VNull => false
  | VBool b => b
  | VNum n => negb (n =? 0)
  | VStr s => negb (String.eqb s "")
  | VOid _ | VDate _ | VArr _ | VObj _ | VHost _ => true
  end.

(** [a || b] *)
Definition js_or (a b : value) : value := if truthy a then a else b.

(** [o.k] on an object: a missing property reads as [undefined]. *)
Definition prop (o : obj) (k : string) : value := default VUndef (o !! k).

(** [v !== undefined] *)
Definition defined (v : value) : bool :=
  match v with
  | VUndef => false
  | _ => true
  end.

(** [v === "true"]: strict equality with a string literal holds for that
    very string only, never for an array, an object or another type. *)
Definition strict_eq_str (v : value) (lit : string) : bool :=
  match v with
  | VStr s => String.eqb s lit
  | _ => false
  end.

(** Strict equality restricted to the scalars that are compared in this
    program (booleans, numbers, strings, ids, dates, null); arrays and objects
    never compare equal to a scalar. *)
Definition scalar_eqb (a b : value) : bool :=
  match a, b with
  | VNull, VNull => true
  | VBool x, VBool y => bool_decide (x = y)
  | VNum x, VNum y => x =? y
  | VStr x, VStr y => String.eqb x y
  | VOid x, VOid y => String.eqb x y
  | VDate x, VDate y => x =? y
  | _, _ => false
  end.

(** The host's [toString] for the kinds of value whose rendering depends on
    the engine (number formatting, the time zone of a [Date], [Array.join],
    user-defined [toString] properties).  It may throw. *)
Class Host := { host_toString : value → outcome string }.

(** [v.toString()] *)
Definition js_toString `{Host} (v : value) : outcome string :=
  match v with
  | VUndef => Throw (TypeError "Cannot read properties of undefined (reading 'toString')")
  | VNull => Throw (TypeError "Cannot read properties of null (reading 'toString')")
  | VBool b => Ok (if b then "true" else "false")
  | VStr s => Ok s
  | VOid hex => Ok hex
  | VNum _ | VDate _ | VArr _ | VObj _ | VHost _ => host_toString v
  end.

(** What [res.status(n).json(x)] leaves behind, or the exception with which
    the promise of an [async] handler rejects when nothing in the handler
    caught it (no response is written by the handler then). *)
Inductive reply : Type :=
  | Responded (status : Z) (body : value)
  | Unhandled (e : exn).

Definition is_4xx (r : reply) : bool :=
  match r with
  | Responded s _ => (400 <=? s) && (s <? 500)
  | Unhandled _ => false
  end.

Definition status_of (r : reply) : option Z :=
  match r with
  | Responded s _ => Some s
  | Unhandled _ => None
  end.

(** [{ error: msg }] and [{ message: msg }] *)
Definition error_body (msg : string) : value := VObj {[ "error" := VStr msg ]}.
Definition message_body (msg : string) : value := VObj {[ "message" := VStr msg ]}.

(** The text of [`Task with ID ${id} not found`]. *)
Definition not_found_text (id : string) : string :=
  "Task with ID " +:+ id +:+ " not found".

(** Resolving an identifier in the scope of a piece of code: an identifier
    that no enclosing scope declares throws a [ReferenceError] (the files are
    ES modules, hence strict code, and nothing defines a global [id]). *)
Definition resolve (scope : obj) (x : string) : outcome value :=
  match scope !! x with
  | Some v => Ok v
  | None => Throw (ReferenceError (x +:+ " is not defined"))
  end.

(** Interpolating a value into a template literal. *)
Definition interpolate `{Host} (v : value) : outcome string :=
  match v with
  | VUndef => Ok "undefined"
  | VNull => Ok "null"
  | _ => js_toString v
  end.

(** What the handlers read from [req]. *)
Record request := Request {
  params_id : string;       (* req.params.id; a string whenever the route has :id *)
  query : obj;              (* req.query *)
  body : value              (* req.body: what express.json() parsed, or
                               undefined when no JSON body was parsed *)
}.

(** [const { title, description, complete } = v]: destructuring [undefined]
    or [null] throws; a value that is not an object has none of the
    properties. *)
Definition destructure (v : value) : outcome obj :=
  match v with
  | VUndef =>
      Throw (TypeError "Cannot destructure property 'title' of 'req.body' as it is undefined.")
  | VNull =>
      Throw (TypeError "Cannot destructure property 'title' of 'req.body' as it is null.")
  | VObj o => Ok o
  | _ => Ok ∅
  end.

(** [v[0]] *)
Definition index0 (v : value) : outcome value :=
  match v with
  | VUndef => Throw (TypeError "Cannot read properties of undefined (reading '0')")
  | VNull => Throw (TypeError "Cannot read properties of null (reading '0')")
  | VArr xs => Ok (default VUndef (head xs))
  | _ => Ok VUndef
  end.

(** [v.k] on any value: reading a property of [undefined] or [null] throws;
    the values that are not objects have no property of the names read in
    this program. *)
Definition member (v : value) (k : string) : outcome value :=
  match v with
  | VUndef => Throw (TypeError ("Cannot read properties of undefined (reading '" +:+ k +:+ "')"))
  | VNull => Throw (TypeError ("Cannot read properties of null (reading '" +:+ k +:+ "')"))
  | VObj o => Ok (prop o k)
  | _ => Ok VUndef
  end.

(** ** State and exceptions *)

(** A computation over a store [S] that may throw: the store is threaded
    through, also when an exception is raised. *)
Definition io (S A : Type) : Type := S → S * outcome A.

Definition ret {S A} (a : A) : io S A := λ s, (s, Ok a).

Definition bind {S A B} (m : io S A) (k : A → io S B) : io S B :=
  λ s, match m s with
       | (s', Ok a) => k a s'
       | (s', Throw e) => (s', Throw e)
       end.

(** An expression that does not touch the store. *)
Definition lift {S A} (o : outcome A) : io S A := λ s, (s, o).

(** [try { body } catch (error) { handler }] *)
Definition try_catch {S A} (body : io S A) (handler : exn → io S A) : io S A :=
  λ s, match body s with
       | (s', Ok a) => (s', Ok a)
       | (s', Throw e) => handler e s'
       end.

Notation "'let*' x ':=' m 'in' k" := (bind m (λ x, k))
  (at level 10, x name, m at level 100, k at level 200, only parsing).

(** An [async] route handler: an exception that escapes it rejects its
    promise. *)
Definition handle {S} (m : io S reply) : S → S * reply :=
  λ s, match m s with
       | (s', Ok r) => (s', r)
       | (s', Throw e) => (s', Unhandled e)
       end.

(** [xs.map(f)] where [f] may throw: the first exception ends the loop. *)
Fixpoint map_throw {A B} (f : A → outcome B) (xs : list A) : outcome (list B) :=
  match xs with
  | [] => Ok []
  | x :: rest =>
      obind (f x) (λ y, obind (map_throw f rest) (λ ys, Ok (y :: ys)))
  end.

(** The coming calls to a database are scripted by a list: the k-th call
    from now fails with message [m] when the k-th entry is [Some m], and runs
    normally otherwise.  [next_ok]: the next call will not fail. *)
Definition next_ok (fs : list (option string)) : bool :=
  match fs with
  | Some _ :: _ => false
  | _ => true
  end.

(** ** Strings of hexadecimal digits *)

Definition is_hex (a : Ascii.ascii) : bool :=
  let n := Ascii.N_of_ascii a in
  (((48 <=? n) && (n <=? 57)) || ((65 <=? n) && (n <=? 70))
   || ((97 <=? n) && (n <=? 102)))%N.

Definition lower_hex (a : Ascii.ascii) : Ascii.ascii :=
  let n := Ascii.N_of_ascii a in
  if ((65 <=? n) && (n <=? 70))%N then Ascii.ascii_of_N (n + 32) else a.

Fixpoint string_forallb (p : Ascii.ascii → bool) (s : string) : bool :=
  match s with
  | EmptyString => true
  | String a rest => p a && string_forallb p rest
  end.

Fixpoint string_map (f : Ascii.ascii → Ascii.ascii) (s : string) : string :=
  match s with
  | EmptyString => EmptyString
  | String a rest => String (f a) (string_map f rest)
  end.

Definition hex_digit (n : N) : Ascii.ascii :=
  (if n <? 10 then Ascii.ascii_of_N (48 + n) else Ascii.ascii_of_N (87 + n))%N.

Fixpoint hex_of (digits : nat) (n : N) (acc : string) : string :=
  match digits with
  | O => acc
  | S d => hex_of d (n / 16)%N (String (hex_digit (n mod 16)%N) acc)
  end.

(** ** The MongoDB server, [src/server/app.js] *)

Module Mongo.

(** *** The driver: [ObjectId] and the [tasks] collection *)

(** [new ObjectId(id)] on a string, as the [bson] package shipped with the
    driver release whose [findOneAndUpdate] resolves to the document itself
    (the shape the PUT handler relies on): a string of 24 hexadecimal digits
    is accepted, every other string throws.  [toString()] of the result is
    the lower-case hexadecimal string. *)
Definition is_hex24 (id : string) : bool :=
  (String.length id =? 24)%nat && string_forallb is_hex id.

Definition ObjectId (id : string) : outcome value :=
  if is_hex24 id
  then Ok (VOid (string_map lower_hex id))
  else Throw (BSONError
         "input must be a 24 character hex string, 12 byte Uint8Array, or an integer").

(** [new ObjectId()]: the id the driver generates for a document that has
    none, here from a counter. *)
Definition generate (counter : N) : value := VOid (hex_of 24 counter "").
Arguments generate : simpl never.

(** The collection: its documents in insertion order, the counter from which
    the next [_id] is generated, and the fate of the coming driver calls: the
    k-th call from now fails with message [m] when the k-th entry of [faults]
    is [Some m] (connection lost, server error) and runs normally otherwise. *)
Record collection := Collection {
  docs : list obj;
  next_id : N;
  faults : list (option string)
}.

Definition with_docs (c : collection) (ds : list obj) : collection :=
  Collection ds (next_id c) (faults c).

(** The collection once the pending entry of [faults] is consumed. *)
Definition after_call (c : collection) : collection :=
  Collection (docs c) (next_id c) (tail (faults c)).

(** Every driver call starts here: it consumes one entry of [faults]. *)
Definition round_trip : io collection unit :=
  λ c, match faults c with
       | Some m :: rest => (Collection (docs c) (next_id c) rest, Throw (DriverError m))
       | None :: rest => (Collection (docs c) (next_id c) rest, Ok ())
       | [] => (c, Ok ())
       end.

(** An equality condition [{ k: v }] on a document whose field [k] holds
    [x]: [x] equals [v], or [x] is an array one of whose elements equals
    [v].  An [_id] is never an array (the server refuses such a document),
    so there the condition is plain equality. *)
Definition field_matches (k : string) (x v : value) : bool :=
  match x with
  | VArr xs => negb (String.eqb k "_id") && existsb (λ y, scalar_eqb y v) xs
  | _ => scalar_eqb x v
  end.

(** A document matches a filter when it meets the condition of each field
    of the filter. *)
Definition matches (q d : obj) : bool :=
  forallb (λ kv, field_matches kv.1 (prop d kv.1) kv.2) (map_to_list q).

(** BSON has no [undefined]: with the driver's default options a field whose
    value is [undefined] is written as [null]. *)
Definition to_bson (v : value) : value :=
  match v with
  | VUndef => VNull
  | _ => v
  end.

(** [taskCollection.find(q).toArray()] *)
Definition find (q : obj) : io collection (list obj) :=
  let* _ := round_trip in
  λ c, (c, Ok (List.filter (matches q) (docs c))).

(** [taskCollection.findOne(q)]: the first match, or [null]. *)
Definition findOne (q : obj) : io collection value :=
  let* _ := round_trip in
  λ c, (c, Ok (from_option VObj VNull (head (List.filter (matches q) (docs c))))).

(** [taskCollection.insertOne(doc)]: a document without [_id] gets a fresh
    ObjectId; [_id] is unique in a collection, a second document with the
    same [_id] is refused.  Resolves to the [insertedId]. *)
Definition insertOne (doc : obj) : io collection value :=
  let* _ := round_trip in
  λ c,
    let d := match doc !! "_id" with
             | Some _ => doc
             | None => <["_id" := generate (next_id c)]> doc
             end in
    let c' := Collection (docs c) (N.succ (next_id c)) (faults c) in
    if existsb (λ old, scalar_eqb (prop old "_id") (prop d "_id")) (docs c)
    then (c', Throw (DriverError "E11000 duplicate key error"))
    else (with_docs c' (docs c ++ [to_bson <$> d]), Ok (prop d "_id")).

(** Apply [f] to the first element that satisfies [p]. *)
Fixpoint alter_first {A} (p : A → bool) (f : A → A) (xs : list A) : list A :=
  match xs with
  | [] => []
  | x :: rest => if p x then f x :: rest else x :: alter_first p f rest
  end.

(** Remove the first element that satisfies [p]. *)
Fixpoint remove_first {A} (p : A → bool) (xs : list A) : list A :=
  match xs with
  | [] => []
  | x :: rest => if p x then rest else x :: remove_first p rest
  end.

(** [{ $set: fields }] applied to a document: the listed fields are
    overwritten (or added), the others are kept. *)
Definition apply_set (fields d : obj) : obj := (to_bson <$> fields) ∪ d.

(** [taskCollection.findOneAndUpdate(q, { $set: fields },
    { returnDocument: "after" })]: the updated document, or [null] when
    nothing matches. *)
Definition findOneAndUpdate (q fields : obj) : io collection value :=
  let* _ := round_trip in
  λ c,
    match head (List.filter (matches q) (docs c)) with
    | Some d =>
        (with_docs c (alter_first (matches q) (apply_set fields) (docs c)),
         Ok (VObj (apply_set fields d)))
    | None => (c, Ok VNull)
    end.

(** [taskCollection.deleteOne(q)]: resolves to [result.deletedCount]. *)
Definition deleteOne (q : obj) : io collection Z :=
  let* _ := round_trip in
  λ c,
    if existsb (matches q) (docs c)
    then (with_docs c (remove_first (matches q) (docs c)), Ok 1)
    else (c, Ok 0).

(** Objects live in a heap and are designated by their address. *)
Abbreviation heap := (list obj).

(** *** The document normaliser *)

Section Handlers.
Context `{Host}.

(** [transformTaskDocument(doc)].  On a value that is not an object (and is
    not falsy) [doc._id] reads as [undefined], whose [toString] throws. *)
Definition transformTaskDocument (doc : value) : outcome value :=
  if negb (truthy doc) then Ok VNull
  else
    match doc with
    | VObj d =>
        let task := d in                                  (* { ...doc } *)
        obind (js_toString (prop d "_id")) (λ s,
        Ok (VObj (<["id" := VStr s]> task)))              (* task.id = ... *)
    | _ => obind (js_toString VUndef) (λ s, Ok VUndef)
    end.

(** *** The route handlers *)

(** The identifiers of module scope, bound before any request arrives. *)
Definition module_scope : obj :=
  list_to_map
    [("express", VHost "express"); ("dotenv", VHost "dotenv");
     ("path", VHost "path"); ("fileURLToPath", VHost "fileURLToPath");
     ("MongoClient", VHost "MongoClient"); ("ObjectId", VHost "ObjectId");
     ("__filename", VHost "__filename"); ("__dirname", VHost "__dirname");
     ("app", VHost "app"); ("port", VHost "port"); ("uri", VHost "uri");
     ("client", VHost "client"); ("dbName", VStr "Nodetask");
     ("db", VHost "db"); ("taskCollection", VHost "taskCollection");
     ("transformTaskDocument", VHost "transformTaskDocument");
     ("startServer", VHost "startServer")].

(** The scope of a handler's [catch (error) { ... }] block: the module, the
    handler's parameters and [error].  The [const]s of the [try] block are
    not in scope there. *)
Definition catch_scope : obj :=
  <["error" := VHost "error"]> (<["req" := VHost "req"]> (<["res" := VHost "res"]> module_scope)).

(** The filter built by [GET /api/tasks] from [req.query]. *)
Definition list_filter (query : obj) : obj :=
  let complete := prop query "complete" in
  if defined complete then
    let isCompleted := strict_eq_str complete "true" in
    {[ "complete" := VBool isCompleted ]}
  else ∅.

(** [app.get("/api/tasks", ...)] *)
Definition get_tasks (req : request) : collection → collection * reply :=
  handle (try_catch
    (let query := list_filter (query req) in
     let* tasks := find query in
     let* transformedTasks := lift (map_throw transformTaskDocument (VObj <$> tasks)) in
     ret (Responded 200 (VArr transformedTasks)))
    (λ error, ret (Responded 500 (error_body (message error))))).

(** [app.get("/api/tasks/:id", ...)] *)
Definition get_task (req : request) : collection → collection * reply :=
  handle (try_catch
    (let id := params_id req in
     let* objectId := lift (ObjectId id) in
     let* task := findOne {[ "_id" := objectId ]} in
     if negb (truthy task) then
       ret (Responded 404 (error_body (not_found_text id)))
     else
       let* transformedTask := lift (transformTaskDocument task) in
       ret (Responded 200 transformedTask))
    (λ error, ret (Responded 500 (error_body "Invalid ID format")))).

(** The object literal [task] of the POST handler; [now] and [later] are
    what its two [new Date()] yield, in that order. *)
Definition new_task (now later : Z) (title description complete : value) : obj :=
  list_to_map
    [("title", title);
     ("description", js_or description (VStr ""));
     ("complete", js_or complete (VBool false));
     ("createdAt", VDate now);
     ("updatedAt", VDate later)].

(** [app.post("/api/tasks", ...)] *)
Definition post_task (now later : Z) (req : request) : collection → collection * reply :=
  handle (try_catch
    (let* fields := lift (destructure (body req)) in
     let title := prop fields "title" in
     let description := prop fields "description" in
     let complete := prop fields "complete" in
     if negb (truthy title) then
       ret (Responded 404 (error_body "Title is required"))
     else
       let task := new_task now later title description complete in
       let* insertedId := insertOne task in
       let* insertedTask := findOne {[ "_id" := insertedId ]} in
       ret (Responded 201 insertedTask))
    (λ error,
       let* id := lift (resolve catch_scope "id") in
       let* text := lift (interpolate id) in
       ret (Responded 404 (error_body (not_found_text text))))).

(** The [$set] part of [updateDoc] in the PUT handler. *)
Definition updateDoc (now : Z) (title description complete : value) : obj :=
  list_to_map
    [("title", title); ("description", description);
     ("complete", complete); ("updatedAt", VDate now)].

(** [app.put("/api/tasks/:id", ...)] *)
Definition put_task (now : Z) (req : request) : collection → collection * reply :=
  handle (try_catch
    (let id := params_id req in
     let* fields := lift (destructure (body req)) in
     let title := prop fields "title" in
     let description := prop fields "description" in
     let complete := prop fields "complete" in
     let* objectId := lift (ObjectId id) in
     let updateDoc := updateDoc now title description complete in
     let* updatedTask := findOneAndUpdate {[ "_id" := objectId ]} updateDoc in
     if negb (truthy updatedTask) then
       ret (Responded 404 (error_body (not_found_text id)))
     else
       let* transformedTask := lift (transformTaskDocument updatedTask) in
       ret (Responded 200 transformedTask))
    (λ error, ret (Responded 500 (error_body (message error))))).

(** [app.delete("/api/tasks/:id", ...)] *)
Definition delete_task (req : request) : collection → collection * reply :=
  handle (try_catch
    (let id := params_id req in
     let* objectId := lift (ObjectId id) in
     let* deletedCount := deleteOne {[ "_id" := objectId ]} in
     if deletedCount =? 0 then
       ret (Responded 404 (error_body (not_found_text id)))
     else
       ret (Responded 200 (message_body "Task deleted successfully")))
    (λ error, ret (Responded 500 (error_body (message error))))).

(** *** The normaliser over a heap of objects *)

(** A variable holds [undefined], [null] or a reference to an object of
    the heap.  A reference always designates a live object. *)
Inductive ref : Type :=
  | RUndef
  | RNull
  | RLoc (l : nat).

(** [{ ...o }]: a new object with the own properties of [o]. *)
Definition spread (l : nat) : io heap nat :=
  λ h, (h ++ [default ∅ (h !! l)], Ok (length h)).

(** [o.k] *)
Definition read (l : nat) (k : string) : io heap value :=
  λ h, (h, Ok (prop (default ∅ (h !! l)) k)).

(** [o.k = v] *)
Definition write (l : nat) (k : string) (v : value) : io heap unit :=
  λ h, (alter (insert k v) l h, Ok ()).

(** [transformTaskDocument(doc)] with [doc] a reference: the same statements
    as above, with the allocation and the assignment made explicit. *)
Definition transformTaskDocument_ref (doc : ref) : io heap ref :=
  match doc with
  | RUndef | RNull => ret RNull
  | RLoc d =>
      let* task := spread d in
      let* _id := read d "_id" in
      let* s := lift (js_toString _id) in
      let* _ := write task "id" (VStr s) in
      ret (RLoc task)
  end.

End Handlers.

End Mongo.


(** ** The Supabase server, [src/unnamed/part_000] *)

Module Supabase.

(** *** The client library over a [tasks] table *)

(** What the table definition decides and the repository does not contain:
    how the text of an id is read as a key of the [id] column ([None]: the
    text is not valid for the column type, which the database reports as an
    error), the keys it generates, and the column defaults. *)
Record schema := Schema {
  key_parse : string → option value;
  key_gen : N → value;
  column_defaults : obj
}.

Record table := Table {
  rows : list obj;
  next_key : N;
  faults : list (option string)
}.

(** What awaiting a query resolves to: [{ data, error }], with [error] null
    ([None]) on success and an object with a [message] otherwise.  The
    library reports failures this way and does not throw. *)
Record result := Result {
  data : value;
  error : option string
}.

Definition with_rows (t : table) (rs : list obj) : table :=
  Table rs (next_key t) (faults t).

(** One request to the service: it consumes one entry of [faults]. *)
Definition round_trip (run : table → table * result) : io table result :=
  λ t, match faults t with
       | Some m :: rest => (Table (rows t) (next_key t) rest, Ok (Result VNull (Some m)))
       | None :: rest =>
           let '(t', r) := run (Table (rows t) (next_key t) rest) in (t', Ok r)
       | [] => let '(t', r) := run t in (t', Ok r)
       end.

Definition column_is (col : string) (v : value) (row : obj) : bool :=
  scalar_eqb (prop row col) v.

Definition invalid_key : result :=
  Result VNull (Some "invalid input syntax for the id column").

(** [JSON.stringify] of the payload drops the properties that are
    [undefined]. *)
Definition payload (fields : obj) : obj := filter (λ kv, defined kv.2 = true) fields.

Section Queries.
Context (sch : schema).

(** [supabase.from("tasks").select("*")], with [.eq(col, v)] when [flt] is
    given. *)
Definition select_all (flt : option (string * value)) : io table result :=
  round_trip (λ t,
    let found := match flt with
                 | Some (col, v) => List.filter (column_is col v) (rows t)
                 | None => rows t
                 end in
    (t, Result (VArr (VObj <$> found)) None)).

(** [.select("*").eq("id", id).single()]: exactly one row, or an error. *)
Definition select_single (id : string) : io table result :=
  round_trip (λ t,
    match key_parse sch id with
    | None => (t, invalid_key)
    | Some k =>
        match List.filter (column_is "id" k) (rows t) with
        | [row] => (t, Result (VObj row) None)
        | _ => (t, Result VNull (Some "JSON object requested, multiple (or no) rows returned"))
        end
    end).

(** [.insert(fields).select()]: the new row, in an array. *)
Definition insert_row (fields : obj) : io table result :=
  round_trip (λ t,
    let row := <["id" := key_gen sch (next_key t)]> (payload fields ∪ column_defaults sch) in
    (Table (rows t ++ [row]) (N.succ (next_key t)) (faults t),
     Result (VArr [VObj row]) None)).

(** [.update(fields).eq("id", id).select()]: the rows updated, in an array. *)
Definition update_rows (fields : obj) (id : string) : io table result :=
  round_trip (λ t,
    match key_parse sch id with
    | None => (t, invalid_key)
    | Some k =>
        let upd row := if column_is "id" k row then payload fields ∪ row else row in
        (with_rows t (upd <$> rows t),
         Result (VArr (VObj <$> (upd <$> List.filter (column_is "id" k) (rows t)))) None)
    end).

(** [.delete().eq("id", id)]: no row is returned, and deleting nothing is
    not an error. *)
Definition delete_rows (id : string) : io table result :=
  round_trip (λ t,
    match key_parse sch id with
    | None => (t, invalid_key)
    | Some k =>
        (with_rows t (List.filter (λ row, negb (column_is "id" k row)) (rows t)),
         Result VNull None)
    end).

End Queries.

(** *** The route handlers *)

Section Handlers.
Context `{Host} (sch : schema).

(** The identifiers of module scope. *)
Definition module_scope : obj :=
  list_to_map
    [("express", VHost "express"); ("dotenv", VHost "dotenv");
     ("path", VHost "path"); ("fileURLToPath", VHost "fileURLToPath");
     ("createClient", VHost "createClient"); ("json", VHost "json");
     ("__filename", VHost "__filename"); ("__dirname", VHost "__dirname");
     ("app", VHost "app"); ("port", VHost "port");
     ("supabaseUrl", VHost "supabaseUrl"); ("supabaseKey", VHost "supabaseKey");
     ("supabase", VHost "supabase")].

(** The scope inside the POST handler once the insert has been awaited. *)
Definition post_scope (title description complete data error : value) : obj :=
  <["req" := VHost "req"]> (<["res" := VHost "res"]>
  (<["title" := title]> (<["description" := description]> (<["complete" := complete]>
  (<["data" := data]> (<["error" := error]> module_scope)))))).

(** [app.get("/api/tasks", ...)] *)
Definition get_tasks (req : request) : table → table * reply :=
  handle (
    let complete := prop (query req) "complete" in
    let flt := if defined complete then
                 let isCompleted := strict_eq_str complete "true" in
                 Some ("complete", VBool isCompleted)
               else None in
    let* r := select_all flt in
    match error r with
    | Some m => ret (Responded 500 (error_body m))
    | None => ret (Responded 200 (data r))
    end).

(** [app.get("/api/tasks/:id", ...)] *)
Definition get_task (req : request) : table → table * reply :=
  handle (
    let id := params_id req in
    let* r := select_single sch id in
    match error r with
    | Some _ => ret (Responded 404 (error_body (not_found_text id)))
    | None => ret (Responded 200 (data r))
    end).

(** [app.post("/api/tasks", ...)] *)
Definition post_task (req : request) : table → table * reply :=
  handle (
    let* fields := lift (destructure (body req)) in
    let title := prop fields "title" in
    let description := prop fields "description" in
    let complete := prop fields "complete" in
    if negb (truthy title) then
      ret (Responded 404 (error_body "Title is required"))
    else
      let* r := insert_row sch
                  (list_to_map [("title", title); ("description", description);
                                ("complete", js_or complete (VBool false))]) in
      match error r with
      | Some m =>
          let scope := post_scope title description complete (data r)
                         (VObj {[ "message" := VStr m ]}) in
          let* id := lift (resolve scope "id") in
          let* text := lift (interpolate id) in
          ret (Responded 404 (error_body (not_found_text text)))
      | None =>
          let* created := lift (index0 (data r)) in
          ret (Responded 201 created)
      end).

(** [app.put("/api/tasks/:id", ...)] *)
Definition put_task (req : request) : table → table * reply :=
  handle (
    let id := params_id req in
    let* fields := lift (destructure (body req)) in
    let title := prop fields "title" in
    let description := prop fields "description" in
    let complete := prop fields "complete" in
    let* r := update_rows sch
                (list_to_map [("title", title); ("description", description);
                              ("complete", complete)]) id in
    match error r with
    | Some m => ret (Responded 500 (error_body m))
    | None =>
        let* updated := lift (index0 (data r)) in
        ret (Responded 200 updated)
    end).

(** [app.delete("/api/tasks/:id", ...)] *)
Definition delete_task (req : request) : table → table * reply :=
  handle (
    let id := params_id req in
    let* r := delete_rows sch id in
    match error r with
    | Some m => ret (Responded 500 (error_body m))
    | None => ret (Responded 200 (message_body "Task deleted successfully"))
    end).

End Handlers.

End Supabase.

(** ** The client fetch layer, [src/client/src/api/tasks.js] *)

Module Client.

(** What [fetch] resolves to, as far as [loadTasks] looks at it;
    [json] is the outcome of [response.json()], which throws on a body that
    is not JSON. *)
Record response := Response {
  ok : bool;
  status : Z;
  json : outcome value
}.

(** The environment of one call: the URL parser and the network. *)
Record world := World {
  (* new URL(u).searchParams.get(name): throws when [u] is not a URL *)
  search_param : value → string → outcome (option string);
  (* await fetch(endpoint): throws when the request cannot be made *)
  fetch : string → outcome response
}.

Inductive level := Log | Err.

(** A line written to the console. *)
Record line := Line { lvl : level; label : string; payload : value }.

Definition API_BASE : string := "/api".

Section LoadTasks.
Context `{Host} (w : world).

(** A computation that writes to the console and may throw. *)
Definition console (A : Type) : Type := list line * outcome A.

Definition say {A} (l : line) (m : console A) : console A := (l :: m.1, m.2).

Definition cbind {A B} (m : outcome A) (k : A → console B) : console B :=
  match m with
  | Ok a => k a
  | Throw e => ([], Throw e)
  end.

(** [new Error(v)]: the message is [v] converted to a string. *)
Definition new_Error (v : value) : outcome exn :=
  obind (interpolate v) (λ m, Ok (Error m)).

(** The endpoint [loadTasks] fetches, from the [complete] parameter of the
    page's URL ([null], here [None], when the URL has none). *)
Definition endpoint_for (complete : option string) : string :=
  let endpoint := API_BASE +:+ "/tasks" in
  match complete with
  | Some c => endpoint +:+ "?complete=" +:+ c
  | None => endpoint
  end.

(** The [try] block of [loadTasks]. *)
Definition loadTasks_try (request : value) : console value :=
  cbind (member request "url") (λ u,
  cbind (search_param w u "complete") (λ complete,
  let endpoint := endpoint_for complete in
  say (Line Log "Fetching tasks from:" (VStr endpoint)) (
  cbind (fetch w endpoint) (λ response,
  if negb (ok response) then
    (* response.json().catch(() => ({})) *)
    let errorData := match json response with
                     | Ok v => v
                     | Throw _ => VObj ∅
                     end in
    say (Line Err "API Error:" errorData) (
    cbind (member errorData "error") (λ e,
    cbind (new_Error (js_or e (VStr ("Failed to fetch tasks: " +:+ pretty (status response))))) (λ err,
    ([], Throw err))))
  else
    cbind (json response) (λ data,
    say (Line Log "Tasks fetched:" data) ([], Ok data)))))).

(** [loadTasks({ request })]: the lines written and the value the promise
    settles with.  [args] is the object the router passes to a loader. *)
Definition loadTasks (args : obj) : console value :=
  let request := prop args "request" in
  match loadTasks_try request with
  | (lines, Ok data) => (lines, Ok data)
  | (lines, Throw error) =>
      (lines ++ [Line Err "Error loading tasks:" (VStr (message error))], Ok (VArr []))
  end.

End LoadTasks.

(** The [options] argument of [fetch]: the method, the headers, and the
    value that [JSON.stringify] writes into the body (if any). *)
Record init := Init {
  method : string;
  headers : list (string * string);
  data : option value
}.

(** [await fetch(url, options)] *)
Record network := Network {
  fetch_with : string → init → outcome response
}.

Section Requests.
Context `{Host} (w : world) (n : network).

(** [`${API_BASE}/tasks/${id}`] *)
Definition task_url (id : value) : outcome string :=
  obind (interpolate id) (λ s, Ok (API_BASE +:+ "/tasks/" +:+ s)).

(** The [try] block of [loadTask]. *)
Definition loadTask_try (id : value) : outcome value :=
  obind (task_url id) (λ url,
  obind (fetch w url) (λ response,
  if negb (ok response) then
    obind (interpolate id) (λ s,
    Throw (Error ("Failed to fetch task with ID " +:+ s)))
  else
    json response)).

(** [loadTask(id)]: the [catch] block writes a line, whose text
    interpolates [id] again, and returns a placeholder task. *)
Definition loadTask (id : value) : console value :=
  match loadTask_try id with
  | Ok task => ([], Ok task)
  | Throw error =>
      cbind (interpolate id) (λ s,
      ([Line Err ("Error loading task " +:+ s +:+ ":") (VStr (message error))],
       Ok (VObj (list_to_map
                   [("id", id); ("title", VStr "Error loading task");
                    ("description", VStr ""); ("complete", VBool false)]))))
  end.

(** [createTask(taskData)] *)
Definition createTask (taskData : value) : outcome value :=
  obind (fetch_with n (API_BASE +:+ "/tasks")
           (Init "POST" [("Content-Type", "application/json")] (Some taskData)))
    (λ response,
  if negb (ok response) then Throw (Error "Failed to create task")
  else json response).

(** [updateTask(id, taskData)] *)
Definition updateTask (id taskData : value) : outcome value :=
  obind (task_url id) (λ url,
  obind (fetch_with n url
           (Init "PUT" [("Content-Type", "application/json")] (Some taskData)))
    (λ response,
  if negb (ok response) then
    obind (interpolate id) (λ s,
    Throw (Error ("Failed to update task with ID " +:+ s)))
  else json response)).

(** [deleteTask(id)] *)
Definition deleteTask (id : value) : outcome value :=
  obind (task_url id) (λ url,
  obind (fetch_with n url (Init "DELETE" [] None)) (λ response,
  if negb (ok response) then
    obind (interpolate id) (λ s,
    Throw (Error ("Failed to delete task with ID " +:+ s)))
  else json response)).

End Requests.

End Client.

(** * Properties *)

(** A host for the concrete runs below: objects print the way
    [Object.prototype.toString] prints them.  No run below converts a
    number, a date or an array. *)
#[export] Instance sample_host : Host := {| host_toString _ := Ok "[object Object]" |}.

(** An empty collection, and one holding a single task. *)
Definition empty_tasks : Mongo.collection := Mongo.Collection [] 7 [].

Definition milk : obj :=
  list_to_map
    [("_id", VOid "65f1a2b3c4d5e6f708192a3b"); ("title", VStr "Buy milk");
     ("description", VStr ""); ("complete", VBool false);
     ("createdAt", VDate 1000); ("updatedAt", VDate 1000)].

Definition one_task : Mongo.collection := Mongo.Collection [milk] 8 [].

(** A task as a POST with the body [{ title: "Flags", complete: [false] }]
    stores it: [complete || false] keeps the array. *)
Definition flags : obj :=
  list_to_map
    [("_id", VOid "65f1a2b3c4d5e6f708192a3c"); ("title", VStr "Flags");
     ("description", VStr ""); ("complete", VArr [VBool false]);
     ("createdAt", VDate 1500); ("updatedAt", VDate 1500)].

Definition two_tasks : Mongo.collection := Mongo.Collection [milk; flags] 9 [].

Definition buy_milk : request :=
  Request "" ∅ (VObj {[ "title" := VStr "Buy milk" ]}).

(** A table whose [id] column is a 64-bit integer generated by the
    database: the text of an id is valid when it is a non-empty string of
    decimal digits. *)
Definition is_digit (a : Ascii.ascii) : bool :=
  let n := Ascii.N_of_ascii a in ((48 <=? n) && (n <=? 57))%N.

Fixpoint decimal (acc : N) (s : string) : N :=
  match s with
  | EmptyString => acc
  | String a rest => decimal (10 * acc + (Ascii.N_of_ascii a - 48))%N rest
  end.

Definition bigint_schema : Supabase.schema :=
  Supabase.Schema
    (λ id, if negb (String.eqb id "") && string_forallb is_digit id
           then Some (VNum (Z.of_N (decimal 0 id))) else None)
    (λ n, VNum (Z.of_N n))
    {[ "description" := VNull ]}.

Definition milk_row : obj :=
  list_to_map
    [("id", VNum 1); ("title", VStr "Buy milk");
     ("description", VNull); ("complete", VBool false)].

Definition one_row : Supabase.table := Supabase.Table [milk_row] 2 [].

(** Two environments for the client: no network, and a server that answers
    every request with [r]. *)
Definition url_complete (u : value) (name : string) : outcome (option string) :=
  match u with
  | VStr "http://localhost:5173/?complete=true" => Ok (Some "true")
  | VStr "http://localhost:5173/" => Ok None
  | _ => Throw (TypeError "Invalid URL")
  end.

Definition offline : Client.world :=
  Client.World url_complete (λ _, Throw (TypeError "fetch failed")).

Definition serving (r : Client.response) : Client.world :=
  Client.World url_complete (λ _, Ok r).

Definition loader_args (url : string) : obj :=
  {[ "request" := VObj {[ "url" := VStr url ]} ]}.

(** The rows whose [complete] column is the boolean [b]. *)
Definition has_complete (b : bool) (d : obj) : bool :=
  scalar_eqb (prop d "complete") (VBool b).

(** The documents that the filter [{ complete: b }] selects: [complete] is
    the boolean [b], or an array that contains it. *)
Definition listed (b : bool) (d : obj) : bool :=
  Mongo.field_matches "complete" (prop d "complete") (VBool b).

(** No stored document has this [_id]. *)
Definition absent (k : value) (ds : list obj) : Prop :=
  Forall (λ d, scalar_eqb (prop d "_id") k = false) ds.

(** The document that [POST /api/tasks] stores: the handler's [task] with
    the [_id] the driver generates from the collection's counter. *)
Definition stored_task (now later : Z) (b : obj) (c : Mongo.collection) : obj :=
  Mongo.to_bson <$>
    <["_id" := Mongo.generate (Mongo.next_id c)]>
      (Mongo.new_task now later (prop b "title") (prop b "description")
         (prop b "complete")).

(** ** Values, filters and ids *)

Lemma scalar_eqb_oid (x : value) (h : string) :
  scalar_eqb x (VOid h) = true ↔ x = VOid h.
Proof.
  destruct x; simpl; try (split; [discriminate | intros [=]]).
  rewrite String.eqb_eq. split; [by intros -> | by intros [= ->]].
Qed.

Lemma scalar_eqb_bool (x : value) (b : bool) :
  scalar_eqb x (VBool b) = true ↔ x = VBool b.
Proof.
  destruct x; simpl; try (split; [discriminate | intros [=]]).
  rewrite bool_decide_eq_true. split; [by intros -> | by intros [= ->]].
Qed.

Lemma strict_eq_str_true (v : value) (lit : string) :
  strict_eq_str v lit = true ↔ v = VStr lit.
Proof.
  destruct v; simpl; try (split; [discriminate | intros [=]]).
  rewrite String.eqb_eq. split; [by intros -> | by intros [= ->]].
Qed.

Lemma VObj_inj (a b : obj) : VObj a = VObj b → a = b.
Proof. by intros [= ->]. Qed.

Lemma prop_lookup_Some (o : obj) (k : string) (v : value) :
  o !! k = Some v → prop o k = v.
Proof. unfold prop. by intros ->. Qed.

Lemma prop_lookup_None (o : obj) (k : string) :
  o !! k = None → prop o k = VUndef.
Proof. unfold prop. by intros ->. Qed.

Lemma matches_empty (d : obj) : Mongo.matches ∅ d = true.
Proof. unfold Mongo.matches. by rewrite map_to_list_empty. Qed.

Lemma field_matches_id (x v : value) :
  Mongo.field_matches "_id" x v = scalar_eqb x v.
Proof. by destruct x, v. Qed.

Lemma field_matches_bool (k : string) (x : value) (b : bool) :
  k ≠ "_id" →
  Mongo.field_matches k x (VBool b) = true
  ↔ x = VBool b ∨ ∃ xs : list value, x = VArr xs ∧ VBool b ∈ xs.
Proof.
  intros Hk. destruct x; cbn [Mongo.field_matches];
    try (rewrite scalar_eqb_bool; split; [by left | by intros [? | (? & ? & _)]]).
  apply String.eqb_neq in Hk. rewrite Hk. cbn [negb andb].
  rewrite existsb_exists. split.
  - intros (y & Hin & Hy). right. exists xs. split; [done|].
    apply scalar_eqb_bool in Hy as ->. by apply list_elem_of_In.
  - intros [? | (ys & [= <-] & Hin)]; [done|].
    exists (VBool b). split; [by apply list_elem_of_In | by apply scalar_eqb_bool].
Qed.

Lemma matches_singleton (k : string) (v : value) (d : obj) :
  Mongo.matches {[ k := v ]} d = Mongo.field_matches k (prop d k) v.
Proof.
  unfold Mongo.matches. rewrite map_to_list_singleton. simpl.
  by rewrite andb_true_r.
Qed.

Lemma ObjectId_malformed (id : string) :
  Mongo.is_hex24 id = false →
  Mongo.ObjectId id = Throw (BSONError
    "input must be a 24 character hex string, 12 byte Uint8Array, or an integer").
Proof. unfold Mongo.ObjectId. by intros ->. Qed.

Lemma ObjectId_well_formed (id : string) :
  Mongo.is_hex24 id = true →
  Mongo.ObjectId id = Ok (VOid (string_map lower_hex id)).
Proof. unfold Mongo.ObjectId. by intros ->. Qed.

Lemma round_trip_ok (c : Mongo.collection) :
  next_ok (Mongo.faults c) = true →
  Mongo.round_trip c = (Mongo.after_call c, Ok ()).
Proof.
  destruct c as [ds n fs]. unfold Mongo.round_trip, Mongo.after_call. simpl.
  destruct fs as [|[m|] rest]; simpl; [done|discriminate|done].
Qed.

Lemma round_trip_fault (c : Mongo.collection) (m : string) (rest : list (option string)) :
  Mongo.faults c = Some m :: rest →
  Mongo.round_trip c =
    (Mongo.Collection (Mongo.docs c) (Mongo.next_id c) rest, Throw (DriverError m)).
Proof. unfold Mongo.round_trip. by intros ->. Qed.

Lemma filter_none {A} (p : A → bool) (xs : list A) :
  Forall (λ x, p x = false) xs → List.filter p xs = [].
Proof.
  induction 1 as [|x xs Hx _ IH]; simpl; [done|]. by rewrite Hx.
Qed.

Lemma existsb_none {A} (p : A → bool) (xs : list A) :
  Forall (λ x, p x = false) xs → existsb p xs = false.
Proof.
  induction 1 as [|x xs Hx _ IH]; simpl; [done|]. by rewrite Hx.
Qed.

Lemma absent_no_match (k : value) (ds : list obj) :
  absent k ds → Forall (λ d, Mongo.matches {[ "_id" := k ]} d = false) ds.
Proof.
  intros Ha. eapply Forall_impl; [exact Ha|].
  intros d Hd. by rewrite matches_singleton, field_matches_id.
Qed.

(** ** C2: a malformed id on GET /api/tasks/:id *)

Section MongoProperties.
Context `{Host}.

(** C2 (as amended).  [GET /api/tasks/:id] with an id that is not a valid
    ObjectId text answers 500 with the error "Invalid ID format" and leaves
    the collection alone (the driver is not even called); an id that is
    well formed and matches no document answers 404 with
    "Task with ID <id> not found".  The two errors are distinct, and only
    the second is a 4xx. *)
Theorem get_task_malformed_id_is_500 (req : request) (c : Mongo.collection) :
  Mongo.is_hex24 (params_id req) = false →
  Mongo.get_task req c = (c, Responded 500 (error_body "Invalid ID format"))
  ∧ is_4xx (Mongo.get_task req c).2 = false
  ∧ (∀ (req' : request) (c' : Mongo.collection),
       Mongo.is_hex24 (params_id req') = true →
       next_ok (Mongo.faults c') = true →
       absent (VOid (string_map lower_hex (params_id req'))) (Mongo.docs c') →
       Mongo.get_task req' c' =
         (Mongo.after_call c',
          Responded 404 (error_body (not_found_text (params_id req'))))
       ∧ error_body (not_found_text (params_id req')) ≠ error_body "Invalid ID format").
Proof.
  intros Hbad.
  assert (Mongo.get_task req c = (c, Responded 500 (error_body "Invalid ID format"))) as Hrun.
  { unfold Mongo.get_task, handle, try_catch, bind, lift, ret.
    by rewrite (ObjectId_malformed _ Hbad). }
  split; [exact Hrun|]. split; [by rewrite Hrun|].
  intros req' c' Hgood Hok Habs. split.
  - unfold Mongo.get_task, Mongo.findOne, handle, try_catch, bind, lift, ret.
    rewrite (ObjectId_well_formed _ Hgood), (round_trip_ok _ Hok). simpl.
    by rewrite (filter_none _ _ (absent_no_match _ _ Habs)).
  - unfold error_body, not_found_text. intros Heq.
    apply VObj_inj, (f_equal (λ m : obj, m !! "error")) in Heq.
    rewrite !lookup_singleton_eq in Heq. discriminate.
Qed.

End MongoProperties.

Lemma get_task_malformed_id_is_500_witness :
  Mongo.get_task (Request "xyz" ∅ VUndef) one_task
    = (one_task, Responded 500 (error_body "Invalid ID format"))
  ∧ Mongo.get_task (Request "65F1A2B3C4D5E6F708192A3C" ∅ VUndef) one_task
    = (one_task,
       Responded 404 (error_body "Task with ID 65F1A2B3C4D5E6F708192A3C not found")).
Proof.
  destruct (get_task_malformed_id_is_500 (Request "xyz" ∅ VUndef) one_task
              ltac:(reflexivity)) as (Hrun & _ & Hnf).
  split; [exact Hrun|].
  destruct (Hnf (Request "65F1A2B3C4D5E6F708192A3C" ∅ VUndef) one_task
              ltac:(reflexivity) ltac:(reflexivity)) as [Hrun' _].
  - repeat constructor.
  - exact Hrun'.
Defined.

(** C2 as stated fails: a malformed id on [GET /api/tasks/:id] is answered
    with status 500, which is neither 404 nor any other 4xx. *)
Lemma get_task_malformed_id_not_4xx :
  Mongo.is_hex24 "xyz" = false
  ∧ status_of (Mongo.get_task (Request "xyz" ∅ VUndef) empty_tasks).2 = Some 500
  ∧ ¬ (∀ (req : request) (c : Mongo.collection),
         Mongo.is_hex24 (params_id req) = false →
         is_4xx (Mongo.get_task req c).2 = true).
Proof.
  split; [reflexivity|]. split; [reflexivity|].
  intros Hall. specialize (Hall (Request "xyz" ∅ VUndef) empty_tasks eq_refl).
  vm_compute in Hall. discriminate.
Qed.

(** ** Steps of a computation *)

Lemma bind_ok {S A B} (m : io S A) (k : A → io S B) (s s' : S) (a : A) :
  m s = (s', Ok a) → bind m k s = k a s'.
Proof. unfold bind. by intros ->. Qed.

Lemma bind_throw {S A B} (m : io S A) (k : A → io S B) (s s' : S) (e : exn) :
  m s = (s', Throw e) → bind m k s = (s', Throw e).
Proof. unfold bind. by intros ->. Qed.

Lemma insertOne_ok (doc : obj) (c : Mongo.collection) :
  next_ok (Mongo.faults c) = true →
  doc !! "_id" = None →
  absent (Mongo.generate (Mongo.next_id c)) (Mongo.docs c) →
  Mongo.insertOne doc c =
    (Mongo.Collection
       (Mongo.docs c ++ [Mongo.to_bson <$> <["_id" := Mongo.generate (Mongo.next_id c)]> doc])
       (N.succ (Mongo.next_id c)) (tail (Mongo.faults c)),
     Ok (Mongo.generate (Mongo.next_id c))).
Proof.
  intros Hok Hnone Hfresh. unfold Mongo.insertOne.
  rewrite (bind_ok _ _ _ _ _ (round_trip_ok c Hok)).
  rewrite Hnone. destruct c as [ds n fs].
  cbn [Mongo.after_call Mongo.with_docs Mongo.docs Mongo.next_id Mongo.faults] in *.
  assert (prop (<["_id" := Mongo.generate n]> doc) "_id" = Mongo.generate n) as ->.
  { unfold prop. by rewrite lookup_insert_eq. }
  by rewrite (existsb_none _ _ Hfresh).
Qed.

Lemma insertOne_fault (doc : obj) (c : Mongo.collection) (m : string) rest :
  Mongo.faults c = Some m :: rest →
  Mongo.insertOne doc c =
    (Mongo.Collection (Mongo.docs c) (Mongo.next_id c) rest, Throw (DriverError m)).
Proof.
  intros Hf. unfold Mongo.insertOne.
  by rewrite (bind_throw _ _ _ _ _ (round_trip_fault c m rest Hf)).
Qed.

Lemma findOne_ok (q : obj) (c : Mongo.collection) :
  next_ok (Mongo.faults c) = true →
  Mongo.findOne q c =
    (Mongo.after_call c,
     Ok (from_option VObj VNull (head (List.filter (Mongo.matches q) (Mongo.docs c))))).
Proof.
  intros Hok. unfold Mongo.findOne.
  by rewrite (bind_ok _ _ _ _ _ (round_trip_ok c Hok)).
Qed.

(** ** POST /api/tasks on the MongoDB server *)

Lemma bind_lift_ok {S A B} (a : A) (k : A → io S B) : bind (lift (Ok a)) k = k a.
Proof. reflexivity. Qed.

Lemma bind_lift_throw {S A B} (e : exn) (k : A → io S B) (s : S) :
  bind (lift (Throw e)) k s = (s, Throw e).
Proof. reflexivity. Qed.

(** A request without a parsed body: destructuring [req.body] throws. *)
Lemma destructure_nothing (v : value) :
  v = VUndef ∨ v = VNull → ∃ m : string, destructure v = Throw (TypeError m).
Proof. intros [-> | ->]; by eexists. Qed.

Section MongoPost.
Context `{Host}.

Lemma new_task_no_id (now later : Z) (t d k : value) :
  Mongo.new_task now later t d k !! "_id" = None
  ∧ Mongo.new_task now later t d k !! "id" = None.
Proof. split; vm_compute; reflexivity. Qed.

Lemma to_bson_truthy (v : value) : truthy v = true → Mongo.to_bson v = v.
Proof. by destruct v. Qed.

(** A successful run of the POST handler: one call to insert, one to read
    the document back. *)
Lemma post_task_run (now later : Z) (req : request) (b : obj) (c : Mongo.collection) :
  body req = VObj b →
  truthy (prop b "title") = true →
  next_ok (Mongo.faults c) = true →
  next_ok (tail (Mongo.faults c)) = true →
  absent (Mongo.generate (Mongo.next_id c)) (Mongo.docs c) →
  Mongo.post_task now later req c =
    (Mongo.Collection (Mongo.docs c ++ [stored_task now later b c])
       (N.succ (Mongo.next_id c)) (tail (tail (Mongo.faults c))),
     Responded 201 (VObj (stored_task now later b c))).
Proof.
  intros Hb Htitle Hok1 Hok2 Hfresh.
  unfold Mongo.post_task, handle, try_catch. rewrite Hb. cbn [destructure].
  rewrite bind_lift_ok. rewrite Htitle.
  change (negb true) with false. cbv iota.
  rewrite (bind_ok _ _ _ _ _
             (insertOne_ok _ c Hok1 (proj1 (new_task_no_id _ _ _ _ _)) Hfresh)).
  fold (stored_task now later b c).
  erewrite bind_ok; [| by apply findOne_ok].
  unfold ret, Mongo.after_call.
  cbn [Mongo.docs Mongo.next_id Mongo.faults].
  rewrite List.filter_app, (filter_none _ _ (absent_no_match _ _ Hfresh)).
  cbn [List.filter app]. rewrite matches_singleton, field_matches_id.
  assert (prop (stored_task now later b c) "_id" = Mongo.generate (Mongo.next_id c)) as ->.
  { unfold prop, stored_task. by rewrite lookup_fmap, lookup_insert_eq. }
  unfold Mongo.generate. cbn [scalar_eqb]. by rewrite String.eqb_refl.
Qed.

Lemma stored_lookups (g : value) (now later : Z) (t d k : value) :
  let stored : obj := Mongo.to_bson <$> <["_id" := g]> (Mongo.new_task now later t d k) in
  stored !! "_id" = Some (Mongo.to_bson g)
  ∧ stored !! "title" = Some (Mongo.to_bson t)
  ∧ stored !! "description" = Some (Mongo.to_bson (js_or d (VStr "")))
  ∧ stored !! "complete" = Some (Mongo.to_bson (js_or k (VBool false)))
  ∧ stored !! "createdAt" = Some (VDate now)
  ∧ stored !! "updatedAt" = Some (VDate later)
  ∧ stored !! "id" = None.
Proof.
  cbv zeta. unfold Mongo.new_task.
  generalize (js_or d (VStr "")) (js_or k (VBool false)). intros d' k'.
  repeat split; rewrite lookup_fmap; vm_compute; reflexivity.
Qed.

Lemma to_bson_js_or (v w : value) : w ≠ VUndef → Mongo.to_bson (js_or v w) = js_or v w.
Proof.
  intros Hw. unfold js_or. destruct (truthy v) eqn:E; [by apply to_bson_truthy|].
  by destruct w.
Qed.

Lemma stored_task_fields (now later : Z) (b : obj) (c : Mongo.collection) :
  truthy (prop b "title") = true →
  stored_task now later b c !! "_id" = Some (Mongo.generate (Mongo.next_id c))
  ∧ stored_task now later b c !! "title" = Some (prop b "title")
  ∧ stored_task now later b c !! "description"
      = Some (js_or (prop b "description") (VStr ""))
  ∧ stored_task now later b c !! "complete"
      = Some (js_or (prop b "complete") (VBool false))
  ∧ stored_task now later b c !! "createdAt" = Some (VDate now)
  ∧ stored_task now later b c !! "updatedAt" = Some (VDate later)
  ∧ stored_task now later b c !! "id" = None.
Proof.
  intros Htitle. unfold stored_task.
  destruct (stored_lookups (Mongo.generate (Mongo.next_id c)) now later
              (prop b "title") (prop b "description")
              (prop b "complete")) as (Hid & Ht & Hd & Hk & Hc & Hu & Hno).
  rewrite (to_bson_truthy _ Htitle) in Ht.
  rewrite to_bson_js_or in Hd by done. rewrite to_bson_js_or in Hk by done.
  done.
Qed.

(** C1, on the POST route.  The body of a 201 answer is the stored document
    as the driver returns it: the key is under [_id], as an ObjectId, and
    there is no [id] field at all.  ([transformTaskDocument] is applied on
    the three other routes, see [transformTaskDocument_adds_id] below.) *)
Theorem post_task_reply_has_no_id (now later : Z) (req : request) (b : obj)
    (c : Mongo.collection) :
  body req = VObj b →
  truthy (prop b "title") = true →
  next_ok (Mongo.faults c) = true →
  next_ok (tail (Mongo.faults c)) = true →
  absent (Mongo.generate (Mongo.next_id c)) (Mongo.docs c) →
  ∃ task : obj,
    (Mongo.post_task now later req c).2 = Responded 201 (VObj task)
    ∧ task !! "id" = None
    ∧ ∃ hex : string, task !! "_id" = Some (VOid hex).
Proof.
  intros Hb Htitle Hok1 Hok2 Hfresh. exists (stored_task now later b c).
  destruct (stored_task_fields now later b c Htitle) as (Hid & _ & _ & _ & _ & _ & Hno).
  rewrite (post_task_run now later req b c Hb Htitle Hok1 Hok2 Hfresh).
  split; [done|]. split; [done|]. by eexists.
Qed.



(** When the insert fails, the [catch] block reads [id], which nothing
    declares: the handler ends with a ReferenceError and writes no answer. *)
Lemma post_task_insert_fails (now later : Z) (req : request) (b : obj)
    (c : Mongo.collection) (m : string) (rest : list (option string)) :
  body req = VObj b →
  truthy (prop b "title") = true →
  Mongo.faults c = Some m :: rest →
  Mongo.post_task now later req c =
    (Mongo.Collection (Mongo.docs c) (Mongo.next_id c) rest,
     Unhandled (ReferenceError "id is not defined")).
Proof.
  intros Hb Htitle Hf. unfold Mongo.post_task, handle, try_catch.
  rewrite Hb. cbn [destructure]. rewrite bind_lift_ok, Htitle.
  change (negb true) with false. cbv iota.
  by rewrite (bind_throw _ _ _ _ _ (insertOne_fault _ c m rest Hf)).
Qed.

End MongoPost.

Lemma post_task_reply_has_no_id_witness :
  ∃ task : obj,
    (Mongo.post_task 1000 1001 buy_milk empty_tasks).2 = Responded 201 (VObj task)
    ∧ task !! "id" = None.
Proof.
  destruct (post_task_reply_has_no_id 1000 1001 buy_milk
              {[ "title" := VStr "Buy milk" ]} empty_tasks)
    as (task & Hrun & Hno & _).
  - reflexivity.
  - reflexivity.
  - reflexivity.
  - reflexivity.
  - constructor.
  - exists task. split; [exact Hrun | exact Hno].
Defined.

(** ** The Supabase server *)

Lemma supabase_round_trip_ok (run : Supabase.table → Supabase.table * Supabase.result)
    (t : Supabase.table) :
  next_ok (Supabase.faults t) = true →
  Supabase.round_trip run t =
    let '(t', r) := run (Supabase.Table (Supabase.rows t) (Supabase.next_key t)
                           (tail (Supabase.faults t))) in
    (t', Ok r).
Proof.
  destruct t as [rs n fs]. unfold Supabase.round_trip.
  cbn [Supabase.faults Supabase.rows Supabase.next_key].
  destruct fs as [|[m|] rest]; cbn [tail next_ok]; [done|discriminate|done].
Qed.

Lemma supabase_round_trip_fault (run : Supabase.table → Supabase.table * Supabase.result)
    (t : Supabase.table) (m : string) (rest : list (option string)) :
  Supabase.faults t = Some m :: rest →
  Supabase.round_trip run t =
    (Supabase.Table (Supabase.rows t) (Supabase.next_key t) rest,
     Ok (Supabase.Result VNull (Some m))).
Proof. unfold Supabase.round_trip. by intros ->. Qed.

Lemma filter_all {A} (p : A → bool) (xs : list A) :
  Forall (λ x, p x = true) xs → List.filter p xs = xs.
Proof.
  induction 1 as [|x xs Hx _ IH]; cbn [List.filter]; [done|]. by rewrite Hx, IH.
Qed.

Lemma payload_lookup_defined (fields : obj) (k : string) (v : value) :
  fields !! k = Some v → defined v = true → Supabase.payload fields !! k = Some v.
Proof.
  intros Hk Hv. unfold Supabase.payload. by apply map_lookup_filter_Some.
Qed.

Lemma payload_lookup_undefined (fields : obj) (k : string) :
  prop fields k = VUndef → Supabase.payload fields !! k = None.
Proof.
  intros Hk. unfold Supabase.payload. apply map_lookup_filter_None.
  unfold prop in Hk. destruct (fields !! k) as [v|] eqn:E; [|by left].
  right. intros v' [= <-]. cbn [default from_option id] in Hk. by rewrite Hk.
Qed.

Section SupabaseProperties.
Context `{Host} (sch : Supabase.schema).



Lemma supabase_put_task_no_body (req : request) (t : Supabase.table) :
  body req = VUndef ∨ body req = VNull →
  ∃ m : string, Supabase.put_task sch req t = (t, Unhandled (TypeError m)).
Proof.
  intros Hb. destruct (destructure_nothing _ Hb) as [m Hm]. exists m.
  unfold Supabase.put_task, handle. rewrite Hm. by rewrite bind_lift_throw.
Qed.

Lemma post_scope_no_id (a b c d e : value) :
  Supabase.post_scope a b c d e !! "id" = None.
Proof. vm_compute. reflexivity. Qed.

Lemma supabase_post_task_insert_fails (req : request) (b : obj) (t : Supabase.table)
    (m : string) (rest : list (option string)) :
  body req = VObj b →
  truthy (prop b "title") = true →
  Supabase.faults t = Some m :: rest →
  Supabase.post_task sch req t =
    (Supabase.Table (Supabase.rows t) (Supabase.next_key t) rest,
     Unhandled (ReferenceError "id is not defined")).
Proof.
  intros Hb Htitle Hf. unfold Supabase.post_task, handle.
  rewrite Hb. cbn [destructure]. rewrite bind_lift_ok, Htitle.
  change (negb true) with false. cbv iota.
  unfold Supabase.insert_row.
  rewrite (bind_ok _ _ _ _ _ (supabase_round_trip_fault _ t m rest Hf)).
  cbn [Supabase.error Supabase.data]. unfold resolve.
  rewrite post_scope_no_id. reflexivity.
Qed.

(** A successful POST, step by step: the row inserted and what it holds. *)
Lemma supabase_post_task_row (req : request) (b : obj) (t : Supabase.table) :
  body req = VObj b →
  truthy (prop b "title") = true →
  next_ok (Supabase.faults t) = true →
  ∃ row : obj,
    Supabase.post_task sch req t =
      (Supabase.Table (Supabase.rows t ++ [row]) (N.succ (Supabase.next_key t))
         (tail (Supabase.faults t)),
       Responded 201 (VObj row))
    ∧ row !! "id" = Some (Supabase.key_gen sch (Supabase.next_key t))
    ∧ row !! "title" = Some (prop b "title")
    ∧ row !! "complete" = Some (js_or (prop b "complete") (VBool false))
    ∧ (b !! "description" = None →
       row !! "description" = Supabase.column_defaults sch !! "description").
Proof.
  intros Hb Htitle Hok.
  set (fields := (list_to_map
                    [("title", prop b "title");
                     ("description", prop b "description");
                     ("complete", js_or (prop b "complete") (VBool false))] : obj)).
  exists (<["id" := Supabase.key_gen sch (Supabase.next_key t)]>
            (Supabase.payload fields ∪ Supabase.column_defaults sch)).
  split; [|split; [|split; [|split]]].
  - unfold Supabase.post_task, handle. rewrite Hb. cbn [destructure].
    rewrite bind_lift_ok, Htitle.
    change (negb true) with false. cbv iota. unfold Supabase.insert_row. fold fields.
    erewrite bind_ok; [| rewrite (supabase_round_trip_ok _ t Hok); reflexivity].
    cbn [Supabase.error Supabase.data Supabase.rows Supabase.next_key Supabase.faults].
    cbn [index0 head default from_option id]. by unfold bind, lift, ret.
  - by rewrite lookup_insert_eq.
  - rewrite lookup_insert_ne by done.
    apply lookup_union_Some_l, payload_lookup_defined; [reflexivity|].
    by destruct (prop b "title").
  - rewrite lookup_insert_ne by done.
    apply lookup_union_Some_l, payload_lookup_defined; [reflexivity|].
    unfold js_or. destruct (truthy (prop b "complete")) eqn:E; [|done].
    by destruct (prop b "complete").
  - intros Hnone. rewrite lookup_insert_ne by done.
    apply lookup_union_r, payload_lookup_undefined.
    unfold prop at 1. replace (fields !! "description")
      with (Some (prop b "description")) by reflexivity.
    cbn [default from_option id]. by apply prop_lookup_None.
Qed.

(** A DELETE whose id is valid for the column and matches no row: the
    table keeps its rows and the answer is still 200. *)
Lemma supabase_delete_no_match (req : request) (t : Supabase.table) (k : value) :
  next_ok (Supabase.faults t) = true →
  Supabase.key_parse sch (params_id req) = Some k →
  Forall (λ row, Supabase.column_is "id" k row = false) (Supabase.rows t) →
  Supabase.delete_task sch req t =
    (Supabase.Table (Supabase.rows t) (Supabase.next_key t) (tail (Supabase.faults t)),
     Responded 200 (message_body "Task deleted successfully")).
Proof.
  intros Hok Hk Hnone. unfold Supabase.delete_task, handle, Supabase.delete_rows.
  erewrite bind_ok; [| rewrite (supabase_round_trip_ok _ t Hok), Hk; reflexivity].
  cbn [Supabase.error]. unfold ret, Supabase.with_rows.
  cbn [Supabase.rows Supabase.next_key Supabase.faults].
  rewrite filter_all; [done|].
  eapply Forall_impl; [exact Hnone|]. intros row ->. done.
Qed.

End SupabaseProperties.

(** C3, on the Supabase server.  Deleting task 2 from a table that holds
    task 1 only removes nothing, and the answer is 200 "Task deleted
    successfully" instead of 404. *)
Theorem supabase_delete_nothing_answers_200 :
  Supabase.key_parse bigint_schema "2" = Some (VNum 2)
  ∧ Supabase.delete_task bigint_schema (Request "2" ∅ VUndef) one_row
    = (one_row, Responded 200 (message_body "Task deleted successfully")).
Proof.
  split; [reflexivity|].
  apply (supabase_delete_no_match bigint_schema (Request "2" ∅ VUndef) one_row (VNum 2));
    [reflexivity | reflexivity | repeat constructor].
Qed.

Section PostProperties.
Context `{Host} (sch : Supabase.schema).


(** C6.  A POST with a non-empty title, on a store that accepts it, stores
    one new record and answers 201 with that record, which carries the
    generated id.  On the MongoDB server the record has the empty string for
    a description the body omits and [false] for an omitted [complete].  On
    the Supabase server [complete] is [false] when omitted, but an omitted
    description is not defaulted by the handler: the row holds whatever the
    column default of the table is. *)
Theorem post_task_creates_with_defaults (now later : Z) (req : request) (b : obj)
    (c : Mongo.collection) (t : Supabase.table) :
  body req = VObj b →
  truthy (prop b "title") = true →
  next_ok (Mongo.faults c) = true →
  next_ok (tail (Mongo.faults c)) = true →
  absent (Mongo.generate (Mongo.next_id c)) (Mongo.docs c) →
  next_ok (Supabase.faults t) = true →
  (∃ created : obj,
     Mongo.post_task now later req c =
       (Mongo.Collection (Mongo.docs c ++ [created]) (N.succ (Mongo.next_id c))
          (tail (tail (Mongo.faults c))),
        Responded 201 (VObj created))
     ∧ created !! "_id" = Some (Mongo.generate (Mongo.next_id c))
     ∧ created !! "title" = Some (prop b "title")
     ∧ (b !! "description" = None → created !! "description" = Some (VStr ""))
     ∧ (b !! "complete" = None → created !! "complete" = Some (VBool false))
     ∧ created !! "createdAt" = Some (VDate now)
     ∧ created !! "updatedAt" = Some (VDate later))
  ∧ (∃ row : obj,
       Supabase.post_task sch req t =
         (Supabase.Table (Supabase.rows t ++ [row]) (N.succ (Supabase.next_key t))
            (tail (Supabase.faults t)),
          Responded 201 (VObj row))
       ∧ row !! "id" = Some (Supabase.key_gen sch (Supabase.next_key t))
       ∧ row !! "title" = Some (prop b "title")
       ∧ (b !! "complete" = None → row !! "complete" = Some (VBool false))
       ∧ (b !! "description" = None →
          row !! "description" = Supabase.column_defaults sch !! "description")).
Proof.
  intros Hb Htitle Hok1 Hok2 Hfresh Hokt. split.
  - exists (stored_task now later b c).
    destruct (stored_task_fields now later b c Htitle) as (Hid & Ht & Hd & Hk & Hc & Hu & _).
    split; [by apply post_task_run|].
    repeat split; try done.
    + intros Hnone. by rewrite Hd, (prop_lookup_None _ _ Hnone).
    + intros Hnone. by rewrite Hk, (prop_lookup_None _ _ Hnone).
  - destruct (supabase_post_task_row sch req b t Hb Htitle Hokt)
      as (row & Hrun & Hid & Ht & Hk & Hd).
    exists row. split; [done|]. split; [done|]. split; [done|]. split; [|done].
    intros Hnone. by rewrite Hk, (prop_lookup_None _ _ Hnone).
Qed.

(** C10.  A POST with a valid title whose insert fails reaches the
    error branch, which reads [id]; no scope declares it, so the handler ends
    with "ReferenceError: id is not defined" and does not write the 404
    answer it spells out; on both servers. *)
Theorem post_task_error_branch_reads_undeclared_id (now later : Z) (req : request)
    (b : obj) (c : Mongo.collection) (t : Supabase.table) (m : string)
    (rest : list (option string)) :
  body req = VObj b →
  truthy (prop b "title") = true →
  resolve Mongo.catch_scope "id" = Throw (ReferenceError "id is not defined")
  ∧ (Mongo.faults c = Some m :: rest →
     Mongo.post_task now later req c =
       (Mongo.Collection (Mongo.docs c) (Mongo.next_id c) rest,
        Unhandled (ReferenceError "id is not defined")))
  ∧ (Supabase.faults t = Some m :: rest →
     Supabase.post_task sch req t =
       (Supabase.Table (Supabase.rows t) (Supabase.next_key t) rest,
        Unhandled (ReferenceError "id is not defined"))).
Proof.
  intros Hb Htitle. split; [reflexivity|]. split; intros Hf.
  - by apply (post_task_insert_fails now later req b c m rest).
  - by apply (supabase_post_task_insert_fails sch req b t m rest).
Qed.

End PostProperties.



Lemma post_task_creates_with_defaults_witness :
  (∃ created : obj,
     Mongo.post_task 1000 1001 buy_milk one_task =
       (Mongo.Collection [milk; created] 9 [], Responded 201 (VObj created))
     ∧ created !! "description" = Some (VStr "")
     ∧ created !! "complete" = Some (VBool false))
  ∧ (∃ row : obj,
       (Supabase.post_task bigint_schema buy_milk one_row).2 = Responded 201 (VObj row)
       ∧ row !! "complete" = Some (VBool false)
       ∧ row !! "description" = Some VNull).
Proof.
  destruct (post_task_creates_with_defaults bigint_schema 1000 1001 buy_milk
              {[ "title" := VStr "Buy milk" ]} one_task one_row)
    as [(created & Hrun & _ & _ & Hd & Hk & _) (row & Hrow & _ & _ & Hrk & Hrd)].
  - reflexivity.
  - reflexivity.
  - reflexivity.
  - reflexivity.
  - repeat constructor.
  - reflexivity.
  - split.
    + exists created. split; [exact Hrun|]. split; [by apply Hd | by apply Hk].
    + exists row. split; [by rewrite Hrow|]. split; [by apply Hrk|].
      rewrite Hrd; reflexivity.
Defined.

Lemma post_task_error_branch_reads_undeclared_id_witness :
  Mongo.post_task 1000 1001 buy_milk (Mongo.Collection [milk] 8 [Some "connection lost"])
    = (one_task, Unhandled (ReferenceError "id is not defined"))
  ∧ Supabase.post_task bigint_schema buy_milk
      (Supabase.Table [milk_row] 2 [Some "connection lost"])
    = (one_row, Unhandled (ReferenceError "id is not defined")).
Proof.
  destruct (post_task_error_branch_reads_undeclared_id bigint_schema 1000 1001 buy_milk
              {[ "title" := VStr "Buy milk" ]}
              (Mongo.Collection [milk] 8 [Some "connection lost"])
              (Supabase.Table [milk_row] 2 [Some "connection lost"])
              "connection lost" [] ltac:(reflexivity) ltac:(reflexivity)) as (_ & Hm & Hs).
  split; [by apply Hm | by apply Hs].
Defined.

(** ** GET /api/tasks *)

Lemma find_ok (q : obj) (c : Mongo.collection) :
  next_ok (Mongo.faults c) = true →
  Mongo.find q c = (Mongo.after_call c, Ok (List.filter (Mongo.matches q) (Mongo.docs c))).
Proof.
  intros Hok. unfold Mongo.find.
  by rewrite (bind_ok _ _ _ _ _ (round_trip_ok c Hok)).
Qed.

Lemma list_filter_absent (q : obj) :
  q !! "complete" = None → Mongo.list_filter q = ∅.
Proof. intros Hq. unfold Mongo.list_filter. by rewrite (prop_lookup_None _ _ Hq). Qed.

Lemma list_filter_present (q : obj) (v : value) :
  q !! "complete" = Some v → v ≠ VUndef →
  Mongo.list_filter q = {[ "complete" := VBool (strict_eq_str v "true") ]}.
Proof.
  intros Hq Hv. unfold Mongo.list_filter. rewrite (prop_lookup_Some _ _ _ Hq).
  by destruct v.
Qed.

Section ListProperties.
Context `{Host}.

Lemma get_tasks_run (req : request) (c : Mongo.collection) (ts : list value) :
  next_ok (Mongo.faults c) = true →
  map_throw Mongo.transformTaskDocument
    (VObj <$> List.filter (Mongo.matches (Mongo.list_filter (query req))) (Mongo.docs c))
    = Ok ts →
  Mongo.get_tasks req c = (Mongo.after_call c, Responded 200 (VArr ts)).
Proof.
  intros Hok Hts. unfold Mongo.get_tasks, handle, try_catch.
  rewrite (bind_ok _ _ _ _ _ (find_ok _ c Hok)).
  unfold bind, lift, ret. by rewrite Hts.
Qed.

(** C5.  [GET /api/tasks] without a [complete] parameter applies no filter:
    every task is returned.  With the parameter, the filter is
    [{ complete: b }], where [b] is [true] exactly when the parameter is the
    string "true" ("false" and anything else give [false]), and the tasks
    returned are those the store selects for it: on the MongoDB server the
    documents whose [complete] is [b] or an array that contains [b], on the
    Supabase server the rows whose [complete] is [b]. *)
Theorem get_tasks_complete_filter (req : request) (c : Mongo.collection)
    (t : Supabase.table) :
  next_ok (Mongo.faults c) = true →
  next_ok (Supabase.faults t) = true →
  (query req !! "complete" = None →
     (∀ ts, map_throw Mongo.transformTaskDocument (VObj <$> Mongo.docs c) = Ok ts →
        Mongo.get_tasks req c = (Mongo.after_call c, Responded 200 (VArr ts)))
     ∧ Supabase.get_tasks req t =
         (Supabase.Table (Supabase.rows t) (Supabase.next_key t) (tail (Supabase.faults t)),
          Responded 200 (VArr (VObj <$> Supabase.rows t))))
  ∧ (∀ v, query req !! "complete" = Some v → v ≠ VUndef →
     ∃ b : bool,
       (b = true ↔ v = VStr "true")
       ∧ Mongo.list_filter (query req) = {[ "complete" := VBool b ]}
       ∧ (∀ d : obj,
            listed b d = true
            ↔ prop d "complete" = VBool b
              ∨ ∃ xs : list value, prop d "complete" = VArr xs ∧ VBool b ∈ xs)
       ∧ (∀ ts, map_throw Mongo.transformTaskDocument
                  (VObj <$> List.filter (listed b) (Mongo.docs c)) = Ok ts →
            Mongo.get_tasks req c = (Mongo.after_call c, Responded 200 (VArr ts)))
       ∧ Supabase.get_tasks req t =
           (Supabase.Table (Supabase.rows t) (Supabase.next_key t) (tail (Supabase.faults t)),
            Responded 200 (VArr (VObj <$> List.filter (has_complete b) (Supabase.rows t))))).
Proof.
  intros Hokc Hokt. split.
  - intros Hq. split.
    + intros ts Hts. apply get_tasks_run; [done|].
      rewrite (list_filter_absent _ Hq), filter_all; [done|].
      apply Forall_forall. intros d _. apply matches_empty.
    + unfold Supabase.get_tasks, handle, Supabase.select_all.
      rewrite (prop_lookup_None _ _ Hq). cbn [defined].
      erewrite bind_ok; [| rewrite (supabase_round_trip_ok _ t Hokt); reflexivity].
      reflexivity.
  - intros v Hq Hv. exists (strict_eq_str v "true").
    split; [apply strict_eq_str_true|].
    split; [by apply list_filter_present|].
    split; [intros d; by apply field_matches_bool|]. split.
    + intros ts Hts. apply get_tasks_run; [done|].
      rewrite (list_filter_present _ _ Hq Hv).
      rewrite (List.filter_ext _ (listed (strict_eq_str v "true"))); [done|].
      intros d. apply matches_singleton.
    + unfold Supabase.get_tasks, handle, Supabase.select_all.
      rewrite (prop_lookup_Some _ _ _ Hq).
      assert (defined v = true) as -> by (by destruct v).
      erewrite bind_ok; [| rewrite (supabase_round_trip_ok _ t Hokt); reflexivity].
      reflexivity.
Qed.

End ListProperties.

Lemma get_tasks_complete_filter_witness :
  (∃ ts, Mongo.get_tasks (Request "" ∅ VUndef) one_task = (one_task, Responded 200 (VArr ts))
         ∧ length ts = 1%nat)
  ∧ (∃ ts, Mongo.get_tasks (Request "" {[ "complete" := VStr "false" ]} VUndef)
             two_tasks
           = (two_tasks, Responded 200 (VArr ts))
           ∧ length ts = 2%nat)
  ∧ Mongo.get_tasks (Request "" {[ "complete" := VStr "true" ]} VUndef) one_task
    = (one_task, Responded 200 (VArr [])).
Proof.
  pose proof (get_tasks_complete_filter (Request "" ∅ VUndef) one_task one_row
                eq_refl eq_refl) as [Habsent _].
  pose proof (get_tasks_complete_filter (Request "" {[ "complete" := VStr "false" ]} VUndef)
                two_tasks one_row eq_refl eq_refl) as [_ Hfalse].
  pose proof (get_tasks_complete_filter (Request "" {[ "complete" := VStr "true" ]} VUndef)
                one_task one_row eq_refl eq_refl) as [_ Htrue].
  split; [|split].
  - destruct (Habsent eq_refl) as [Hm _].
    eexists. split; [apply Hm; vm_compute; reflexivity | reflexivity].
  - destruct (Hfalse (VStr "false") eq_refl ltac:(discriminate)) as (b & Hb & _ & _ & Hm & _).
    destruct b; [destruct Hb as [Hb _]; specialize (Hb eq_refl); discriminate|].
    eexists. split; [apply Hm; vm_compute; reflexivity | reflexivity].
  - destruct (Htrue (VStr "true") eq_refl ltac:(discriminate)) as (b & Hb & _ & _ & Hm & _).
    destruct b; [|destruct Hb as [_ Hb]; specialize (Hb eq_refl); discriminate].
    apply Hm. vm_compute. reflexivity.
Defined.

(** ** PUT and DELETE /api/tasks/:id on the MongoDB server *)

Lemma filter_first {A} (p : A → bool) (pre post : list A) (x : A) :
  Forall (λ y, p y = false) pre → p x = true →
  head (List.filter p (pre ++ x :: post)) = Some x.
Proof.
  intros Hpre Hx. rewrite List.filter_app, (filter_none _ _ Hpre).
  cbn [app List.filter]. by rewrite Hx.
Qed.

Lemma alter_first_at {A} (p : A → bool) (f : A → A) (pre post : list A) (x : A) :
  Forall (λ y, p y = false) pre → p x = true →
  Mongo.alter_first p f (pre ++ x :: post) = pre ++ f x :: post.
Proof.
  intros Hpre Hx. induction Hpre as [|y pre Hy _ IH]; cbn [app Mongo.alter_first].
  - by rewrite Hx.
  - by rewrite Hy, IH.
Qed.

Lemma remove_first_at {A} (p : A → bool) (pre post : list A) (x : A) :
  Forall (λ y, p y = false) pre → p x = true →
  Mongo.remove_first p (pre ++ x :: post) = pre ++ post.
Proof.
  intros Hpre Hx. induction Hpre as [|y pre Hy _ IH]; cbn [app Mongo.remove_first].
  - by rewrite Hx.
  - by rewrite Hy, IH.
Qed.

Lemma existsb_at {A} (p : A → bool) (pre post : list A) (x : A) :
  p x = true → existsb p (pre ++ x :: post) = true.
Proof.
  intros Hx. rewrite existsb_app. cbn [existsb]. rewrite Hx.
  by rewrite orb_true_r.
Qed.

Lemma matches_id (k : string) (d : obj) :
  prop d "_id" = VOid k → Mongo.matches {[ "_id" := VOid k ]} d = true.
Proof. intros Hd. rewrite matches_singleton, field_matches_id. by apply scalar_eqb_oid. Qed.

Lemma findOneAndUpdate_found (k : string) (fields : obj) (c : Mongo.collection)
    (pre post : list obj) (d : obj) :
  next_ok (Mongo.faults c) = true →
  Mongo.docs c = pre ++ d :: post →
  absent (VOid k) pre → prop d "_id" = VOid k →
  Mongo.findOneAndUpdate {[ "_id" := VOid k ]} fields c =
    (Mongo.Collection (pre ++ Mongo.apply_set fields d :: post) (Mongo.next_id c)
       (tail (Mongo.faults c)),
     Ok (VObj (Mongo.apply_set fields d))).
Proof.
  intros Hok Hdocs Hpre Hd. unfold Mongo.findOneAndUpdate.
  rewrite (bind_ok _ _ _ _ _ (round_trip_ok c Hok)).
  unfold Mongo.after_call, Mongo.with_docs.
  cbn [Mongo.docs Mongo.next_id Mongo.faults]. rewrite Hdocs.
  rewrite (filter_first _ _ _ _ (absent_no_match _ _ Hpre) (matches_id _ _ Hd)).
  by rewrite (alter_first_at _ _ _ _ _ (absent_no_match _ _ Hpre) (matches_id _ _ Hd)).
Qed.

Lemma findOneAndUpdate_missing (k : string) (fields : obj) (c : Mongo.collection) :
  next_ok (Mongo.faults c) = true →
  absent (VOid k) (Mongo.docs c) →
  Mongo.findOneAndUpdate {[ "_id" := VOid k ]} fields c = (Mongo.after_call c, Ok VNull).
Proof.
  intros Hok Habs. unfold Mongo.findOneAndUpdate.
  rewrite (bind_ok _ _ _ _ _ (round_trip_ok c Hok)).
  unfold Mongo.after_call. cbn [Mongo.docs].
  by rewrite (filter_none _ _ (absent_no_match _ _ Habs)).
Qed.

Lemma deleteOne_found (k : string) (c : Mongo.collection)
    (pre post : list obj) (d : obj) :
  next_ok (Mongo.faults c) = true →
  Mongo.docs c = pre ++ d :: post →
  absent (VOid k) pre → prop d "_id" = VOid k →
  Mongo.deleteOne {[ "_id" := VOid k ]} c =
    (Mongo.Collection (pre ++ post) (Mongo.next_id c) (tail (Mongo.faults c)), Ok 1).
Proof.
  intros Hok Hdocs Hpre Hd. unfold Mongo.deleteOne.
  rewrite (bind_ok _ _ _ _ _ (round_trip_ok c Hok)).
  unfold Mongo.after_call, Mongo.with_docs.
  cbn [Mongo.docs Mongo.next_id Mongo.faults]. rewrite Hdocs.
  rewrite (existsb_at _ _ _ _ (matches_id _ _ Hd)).
  by rewrite (remove_first_at _ _ _ _ (absent_no_match _ _ Hpre) (matches_id _ _ Hd)).
Qed.

Lemma deleteOne_missing (k : string) (c : Mongo.collection) :
  next_ok (Mongo.faults c) = true →
  absent (VOid k) (Mongo.docs c) →
  Mongo.deleteOne {[ "_id" := VOid k ]} c = (Mongo.after_call c, Ok 0).
Proof.
  intros Hok Habs. unfold Mongo.deleteOne.
  rewrite (bind_ok _ _ _ _ _ (round_trip_ok c Hok)).
  unfold Mongo.after_call. cbn [Mongo.docs].
  by rewrite (existsb_none _ _ (absent_no_match _ _ Habs)).
Qed.

(** What [$set] does to a document, field by field. *)
Lemma apply_set_updateDoc (now : Z) (t d k : value) (old : obj) :
  let new := Mongo.apply_set (Mongo.updateDoc now t d k) old in
  new !! "title" = Some (Mongo.to_bson t)
  ∧ new !! "description" = Some (Mongo.to_bson d)
  ∧ new !! "complete" = Some (Mongo.to_bson k)
  ∧ new !! "updatedAt" = Some (VDate now)
  ∧ ∀ f : string,
      f ≠ "title" → f ≠ "description" → f ≠ "complete" → f ≠ "updatedAt" →
      new !! f = old !! f.
Proof.
  cbv zeta. unfold Mongo.apply_set, Mongo.updateDoc.
  assert (∀ f v, (Mongo.to_bson <$> (list_to_map
             [("title", t); ("description", d); ("complete", k);
              ("updatedAt", VDate now)] : obj)) !! f = Some v →
          ((Mongo.to_bson <$> (list_to_map
             [("title", t); ("description", d); ("complete", k);
              ("updatedAt", VDate now)] : obj)) ∪ old) !! f = Some v) as Hl.
  { intros f v Hf. by apply lookup_union_Some_l. }
  repeat split; try (apply Hl; rewrite lookup_fmap; vm_compute; reflexivity).
  intros f Ht Hd Hk Hu. apply lookup_union_r.
  rewrite lookup_fmap. cbn [list_to_map foldr].
  by rewrite !lookup_insert_ne, lookup_empty.
Qed.

Section UpdateProperties.
Context `{Host}.

Lemma transformTaskDocument_oid (d : obj) (hex : string) :
  prop d "_id" = VOid hex →
  Mongo.transformTaskDocument (VObj d) = Ok (VObj (<["id" := VStr hex]> d)).
Proof. intros Hd. unfold Mongo.transformTaskDocument. cbn [truthy negb]. by rewrite Hd. Qed.

Lemma put_task_found (now : Z) (req : request) (b : obj) (c : Mongo.collection)
    (pre post : list obj) (d : obj) :
  body req = VObj b →
  Mongo.is_hex24 (params_id req) = true →
  next_ok (Mongo.faults c) = true →
  Mongo.docs c = pre ++ d :: post →
  absent (VOid (string_map lower_hex (params_id req))) pre →
  prop d "_id" = VOid (string_map lower_hex (params_id req)) →
  let updated := Mongo.apply_set
                   (Mongo.updateDoc now (prop b "title")
                      (prop b "description") (prop b "complete")) d in
  Mongo.put_task now req c =
    (Mongo.Collection (pre ++ updated :: post) (Mongo.next_id c) (tail (Mongo.faults c)),
     Responded 200 (VObj (<["id" := VStr (string_map lower_hex (params_id req))]> updated))).
Proof.
  intros Hb Hid Hok Hdocs Hpre Hd updated.
  unfold Mongo.put_task, handle, try_catch.
  rewrite Hb. cbn [destructure]. rewrite bind_lift_ok.
  rewrite (ObjectId_well_formed _ Hid).
  rewrite (bind_ok _ _ c c _ eq_refl).
  rewrite (bind_ok _ _ _ _ _ (findOneAndUpdate_found _ _ c pre post d Hok Hdocs Hpre Hd)).
  fold updated. cbn [truthy negb].
  assert (prop updated "_id" = VOid (string_map lower_hex (params_id req))) as Hu.
  { unfold prop. destruct (apply_set_updateDoc now (prop b "title")
      (prop b "description") (prop b "complete") d) as (_ & _ & _ & _ & Hrest).
    fold updated in Hrest. by rewrite Hrest. }
  unfold bind, lift, ret. by rewrite (transformTaskDocument_oid _ _ Hu).
Qed.

Lemma put_task_missing (now : Z) (req : request) (b : obj) (c : Mongo.collection) :
  destructure (body req) = Ok b →
  Mongo.is_hex24 (params_id req) = true →
  next_ok (Mongo.faults c) = true →
  absent (VOid (string_map lower_hex (params_id req))) (Mongo.docs c) →
  Mongo.put_task now req c =
    (Mongo.after_call c, Responded 404 (error_body (not_found_text (params_id req)))).
Proof.
  intros Hb Hid Hok Habs. unfold Mongo.put_task, handle, try_catch.
  rewrite Hb, bind_lift_ok.
  rewrite (ObjectId_well_formed _ Hid).
  rewrite (bind_ok _ _ c c _ eq_refl).
  by rewrite (bind_ok _ _ _ _ _ (findOneAndUpdate_missing _ _ c Hok Habs)).
Qed.

Lemma put_task_malformed (now : Z) (req : request) (b : obj) (c : Mongo.collection) :
  destructure (body req) = Ok b →
  Mongo.is_hex24 (params_id req) = false →
  Mongo.put_task now req c =
    (c, Responded 500 (error_body
          "input must be a 24 character hex string, 12 byte Uint8Array, or an integer")).
Proof.
  intros Hb Hid. unfold Mongo.put_task, handle, try_catch.
  rewrite Hb, bind_lift_ok.
  rewrite (ObjectId_malformed _ Hid).
  by rewrite (bind_throw _ _ c c _ eq_refl).
Qed.

(** Without a parsed body the destructuring throws inside [try], before
    the id is looked at: 500 with the TypeError's message, nothing updated. *)
Lemma put_task_no_body (now : Z) (req : request) (c : Mongo.collection) :
  body req = VUndef ∨ body req = VNull →
  ∃ m : string, Mongo.put_task now req c = (c, Responded 500 (error_body m)).
Proof.
  intros Hb. destruct (destructure_nothing _ Hb) as [m Hm]. exists m.
  unfold Mongo.put_task, handle, try_catch. rewrite Hm.
  by rewrite bind_lift_throw.
Qed.

End UpdateProperties.

Section PutClaim.
Context `{Host}.

(** C7 (as amended).  On the MongoDB server, [PUT /api/tasks/:id] with a
    body that was parsed into an object, on the id of a stored task,
    overwrites [title], [description] and [complete] with the values of the
    request body, whatever they are (a field the body omits is stored as
    [null]), sets [updatedAt] to the current time, keeps every other field,
    and answers 200 with the updated task and its [id].  A well-formed id
    that matches no task is answered 404; a malformed id is answered 500
    with the message of the ObjectId constructor, the store untouched; and a
    PUT that carries no parsed body is answered 500 as well, the store
    untouched. *)
Theorem put_task_overwrites (now : Z) (req : request) (b : obj) (c : Mongo.collection)
    (pre post : list obj) (d : obj) :
  body req = VObj b →
  Mongo.is_hex24 (params_id req) = true →
  next_ok (Mongo.faults c) = true →
  Mongo.docs c = pre ++ d :: post →
  absent (VOid (string_map lower_hex (params_id req))) pre →
  prop d "_id" = VOid (string_map lower_hex (params_id req)) →
  (∃ updated : obj,
     Mongo.put_task now req c =
       (Mongo.Collection (pre ++ updated :: post) (Mongo.next_id c) (tail (Mongo.faults c)),
        Responded 200
          (VObj (<["id" := VStr (string_map lower_hex (params_id req))]> updated)))
     ∧ updated !! "title" = Some (Mongo.to_bson (prop b "title"))
     ∧ updated !! "description" = Some (Mongo.to_bson (prop b "description"))
     ∧ updated !! "complete" = Some (Mongo.to_bson (prop b "complete"))
     ∧ updated !! "updatedAt" = Some (VDate now)
     ∧ (∀ f : string,
          f ≠ "title" → f ≠ "description" → f ≠ "complete" → f ≠ "updatedAt" →
          updated !! f = d !! f))
  ∧ Mongo.to_bson VUndef = VNull
  ∧ (∀ c' : Mongo.collection,
       next_ok (Mongo.faults c') = true →
       absent (VOid (string_map lower_hex (params_id req))) (Mongo.docs c') →
       Mongo.put_task now req c' =
         (Mongo.after_call c', Responded 404 (error_body (not_found_text (params_id req)))))
  ∧ (∀ (req' : request) (b' : obj) (c' : Mongo.collection),
       body req' = VObj b' →
       Mongo.is_hex24 (params_id req') = false →
       Mongo.put_task now req' c' =
         (c', Responded 500 (error_body
            "input must be a 24 character hex string, 12 byte Uint8Array, or an integer")))
  ∧ (∀ (req' : request) (c' : Mongo.collection),
       body req' = VUndef →
       ∃ m : string, Mongo.put_task now req' c' = (c', Responded 500 (error_body m))).
Proof.
  intros Hb Hid Hok Hdocs Hpre Hd.
  assert (destructure (body req) = Ok b) as Hdb by (by rewrite Hb).
  split; [|split; [reflexivity|split; [|split]]].
  - eexists. split; [by apply (put_task_found now req b c pre post d)|].
    apply apply_set_updateDoc.
  - intros c' Hok' Habs. by apply (put_task_missing now req b).
  - intros req' b' c' Hb' Hbad. apply (put_task_malformed now req' b'); [|done].
    by rewrite Hb'.
  - intros req' c' Hnone. apply put_task_no_body. by left.
Qed.

End PutClaim.

Lemma put_task_overwrites_witness :
  ∃ updated : obj,
    Mongo.put_task 2000
      (Request "65F1A2B3C4D5E6F708192A3B" ∅ (VObj {[ "title" := VStr "Buy oat milk" ]})) one_task
    = (Mongo.Collection [updated] 8 [],
       Responded 200 (VObj (<["id" := VStr "65f1a2b3c4d5e6f708192a3b"]> updated)))
    ∧ updated !! "title" = Some (VStr "Buy oat milk")
    ∧ updated !! "description" = Some VNull
    ∧ updated !! "complete" = Some VNull
    ∧ updated !! "updatedAt" = Some (VDate 2000)
    ∧ updated !! "createdAt" = Some (VDate 1000).
Proof.
  destruct (put_task_overwrites 2000
              (Request "65F1A2B3C4D5E6F708192A3B" ∅ (VObj {[ "title" := VStr "Buy oat milk" ]}))
              {[ "title" := VStr "Buy oat milk" ]} one_task [] [] milk)
    as ((updated & Hrun & Ht & Hd & Hk & Hu & Hrest) & _).
  - reflexivity.
  - reflexivity.
  - reflexivity.
  - reflexivity.
  - constructor.
  - reflexivity.
  - exists updated. split; [exact Hrun|]. split; [exact Ht|]. split; [exact Hd|].
    split; [exact Hk|]. split; [exact Hu|].
    rewrite Hrest by discriminate. reflexivity.
Defined.

(** C7 as stated fails: a malformed id on [PUT /api/tasks/:id] is answered
    500, not 404; and a PUT on the id of a stored task that carries no JSON
    body is answered 500 as well, with nothing overwritten. *)
Lemma put_task_malformed_id_not_404 :
  Mongo.is_hex24 "xyz" = false
  ∧ status_of (Mongo.put_task 2000 (Request "xyz" ∅ (VObj {[ "title" := VStr "x" ]})) one_task).2
    = Some 500
  ∧ ¬ (∀ (now : Z) (req : request) (c : Mongo.collection),
         Mongo.is_hex24 (params_id req) = false →
         status_of (Mongo.put_task now req c).2 = Some 404)
  ∧ (∃ m : string,
       Mongo.put_task 2000 (Request "65f1a2b3c4d5e6f708192a3b" ∅ VUndef) one_task
       = (one_task, Responded 500 (error_body m))).
Proof.
  split; [reflexivity|]. split; [reflexivity|]. split.
  - intros Hall.
    specialize (Hall 2000 (Request "xyz" ∅ (VObj {[ "title" := VStr "x" ]})) one_task eq_refl).
    rewrite (put_task_malformed 2000 (Request "xyz" ∅ (VObj {[ "title" := VStr "x" ]}))
               {[ "title" := VStr "x" ]} one_task eq_refl eq_refl) in Hall.
    discriminate.
  - apply put_task_no_body. by left.
Qed.

(** ** The normaliser does not touch its argument *)

Section Normaliser.
Context `{Host}.

Lemma transformTaskDocument_ref_throws (h : Mongo.heap) (l : nat) (d : obj) (e : exn) :
  h !! l = Some d →
  js_toString (prop d "_id") = Throw e →
  Mongo.transformTaskDocument_ref (Mongo.RLoc l) h = (h ++ [d], Throw e).
Proof.
  intros Hl He. unfold Mongo.transformTaskDocument_ref, Mongo.spread, Mongo.read, Mongo.write.
  unfold bind, lift, ret. rewrite Hl. cbn [default from_option id].
  rewrite (lookup_app_l_Some _ _ _ _ Hl). cbn [default from_option id]. by rewrite He.
Qed.

Lemma transformTaskDocument_ref_returns (h : Mongo.heap) (l : nat) (d : obj) (s : string) :
  h !! l = Some d →
  js_toString (prop d "_id") = Ok s →
  Mongo.transformTaskDocument_ref (Mongo.RLoc l) h =
    (h ++ [<["id" := VStr s]> d], Ok (Mongo.RLoc (length h))).
Proof.
  intros Hl Hs. unfold Mongo.transformTaskDocument_ref, Mongo.spread, Mongo.read, Mongo.write.
  unfold bind, lift, ret. rewrite Hl. cbn [default from_option id].
  rewrite (lookup_app_l_Some _ _ _ _ Hl). cbn [default from_option id]. rewrite Hs.
  rewrite alter_app_r_alt by lia. by rewrite Nat.sub_diag.
Qed.

(** C9.  [transformTaskDocument] returns [null] for [null] (and for
    [undefined]) without touching the heap.  For a record, every object that
    was in the heap, the record itself included, is still there with the same
    fields afterwards; and when the record's [_id] has a [toString], the
    result is a reference to an object that did not exist before and holds
    the record's fields plus [id]. *)
Theorem transformTaskDocument_leaves_input_alone (h : Mongo.heap) (l : nat) (d : obj) :
  h !! l = Some d →
  Mongo.transformTaskDocument_ref Mongo.RNull h = (h, Ok Mongo.RNull)
  ∧ Mongo.transformTaskDocument_ref Mongo.RUndef h = (h, Ok Mongo.RNull)
  ∧ (Mongo.transformTaskDocument_ref (Mongo.RLoc l) h).1 !! l = Some d
  ∧ (∀ (l0 : nat) (d0 : obj),
       h !! l0 = Some d0 →
       (Mongo.transformTaskDocument_ref (Mongo.RLoc l) h).1 !! l0 = Some d0)
  ∧ (∀ s : string,
       js_toString (prop d "_id") = Ok s →
       ∃ task : nat,
         (Mongo.transformTaskDocument_ref (Mongo.RLoc l) h).2 = Ok (Mongo.RLoc task)
         ∧ task ≠ l
         ∧ h !! task = None
         ∧ (Mongo.transformTaskDocument_ref (Mongo.RLoc l) h).1 !! task
           = Some (<["id" := VStr s]> d)).
Proof.
  intros Hl. split; [reflexivity|]. split; [reflexivity|].
  assert (∀ (l0 : nat) (d0 : obj),
            h !! l0 = Some d0 →
            (Mongo.transformTaskDocument_ref (Mongo.RLoc l) h).1 !! l0 = Some d0) as Hframe.
  { intros l0 d0 Hl0. destruct (js_toString (prop d "_id")) as [s|e] eqn:E.
    - rewrite (transformTaskDocument_ref_returns h l d s Hl E). cbn [fst].
      by apply lookup_app_l_Some.
    - rewrite (transformTaskDocument_ref_throws h l d e Hl E). cbn [fst].
      by apply lookup_app_l_Some. }
  split; [by apply Hframe|]. split; [exact Hframe|].
  intros s Hs. exists (length h).
  rewrite (transformTaskDocument_ref_returns h l d s Hl Hs). cbn [fst snd].
  split; [done|]. split.
  { apply lookup_lt_Some in Hl. lia. }
  split.
  { apply lookup_ge_None. lia. }
  rewrite lookup_app_r by lia. by rewrite Nat.sub_diag.
Qed.

(** The heap version computes what [transformTaskDocument] computes. *)
Lemma transformTaskDocument_ref_agrees (h : Mongo.heap) (l : nat) (d : obj) :
  h !! l = Some d →
  match Mongo.transformTaskDocument (VObj d) with
  | Ok v =>
      ∃ task : nat,
        (Mongo.transformTaskDocument_ref (Mongo.RLoc l) h).2 = Ok (Mongo.RLoc task)
        ∧ VObj <$> ((Mongo.transformTaskDocument_ref (Mongo.RLoc l) h).1 !! task) = Some v
  | Throw e => (Mongo.transformTaskDocument_ref (Mongo.RLoc l) h).2 = Throw e
  end.
Proof.
  intros Hl. unfold Mongo.transformTaskDocument. cbn [truthy negb].
  destruct (js_toString (prop d "_id")) as [s|e] eqn:E; cbn [obind].
  - exists (length h). rewrite (transformTaskDocument_ref_returns h l d s Hl E).
    cbn [fst snd]. split; [done|].
    rewrite lookup_app_r by lia. by rewrite Nat.sub_diag.
  - by rewrite (transformTaskDocument_ref_throws h l d e Hl E).
Qed.

End Normaliser.

Lemma transformTaskDocument_leaves_input_alone_witness :
  (Mongo.transformTaskDocument_ref (Mongo.RLoc 0) [milk]).1 !! 0%nat = Some milk
  ∧ ∃ task : nat,
      (Mongo.transformTaskDocument_ref (Mongo.RLoc 0) [milk]).2 = Ok (Mongo.RLoc task)
      ∧ task ≠ 0%nat
      ∧ (Mongo.transformTaskDocument_ref (Mongo.RLoc 0) [milk]).1 !! task
        = Some (<["id" := VStr "65f1a2b3c4d5e6f708192a3b"]> milk).
Proof.
  destruct (transformTaskDocument_leaves_input_alone [milk] 0 milk eq_refl)
    as (_ & _ & Hsame & _ & Hnew).
  split; [exact Hsame|].
  destruct (Hnew "65f1a2b3c4d5e6f708192a3b" eq_refl) as (task & Hr & Hne & _ & Ht).
  exists task. split; [exact Hr|]. split; [exact Hne | exact Ht].
Defined.

(** ** The client's list loader *)

Section Loader.
Context `{Host} (w : Client.world).

Lemma loadTasks_result (args : obj) :
  (Client.loadTasks w args).2 =
    match (Client.loadTasks_try w (prop args "request")).2 with
    | Ok data => Ok data
    | Throw _ => Ok (VArr [])
    end.
Proof.
  unfold Client.loadTasks.
  by destruct (Client.loadTasks_try w (prop args "request")) as [lines [data|e]].
Qed.

Lemma say_result {A} (l : Client.line) (m : Client.console A) :
  (Client.say l m).2 = m.2.
Proof. reflexivity. Qed.

(** What the [try] block ends with, once the URL has been read. *)
Lemma loadTasks_try_fetch (request u : value) (complete : option string) :
  member request "url" = Ok u →
  Client.search_param w u "complete" = Ok complete →
  (Client.loadTasks_try w request).2 =
    match Client.fetch w (Client.endpoint_for complete) with
    | Throw e => Throw e
    | Ok r =>
        if Client.ok r then Client.json r
        else
          let errorData := match Client.json r with
                           | Ok v => v
                           | Throw _ => VObj ∅
                           end in
          match member errorData "error" with
          | Throw e => Throw e
          | Ok e =>
              match Client.new_Error
                      (js_or e (VStr ("Failed to fetch tasks: " +:+ pretty (Client.status r))))
              with
              | Ok err => Throw err
              | Throw e' => Throw e'
              end
          end
    end.
Proof.
  intros Hu Hc. unfold Client.loadTasks_try. rewrite Hu. cbn [Client.cbind].
  rewrite Hc. cbn [Client.cbind]. cbv zeta. rewrite say_result.
  destruct (Client.fetch w (Client.endpoint_for complete)) as [r|e]; [|done].
  cbn [Client.cbind]. destruct (Client.ok r); cbn [negb].
  - by destruct (Client.json r).
  - rewrite say_result.
    match goal with |- context [member ?x "error"] => destruct (member x "error") as [e|e] end;
      [|done].
    cbn [Client.cbind].
    match goal with |- context [Client.new_Error ?x] => by destruct (Client.new_Error x) end.
Qed.

(** C8.  [loadTasks] never throws: its promise always settles with a value.
    That value is the empty array whenever the request object or the URL
    cannot be read, [fetch] fails, the response is not ok, or the body is not
    JSON; it is the parsed body in the one remaining case. *)
Theorem loadTasks_never_throws (args : obj) :
  (∃ v : value, (Client.loadTasks w args).2 = Ok v)
  ∧ (∀ e, member (prop args "request") "url" = Throw e →
       (Client.loadTasks w args).2 = Ok (VArr []))
  ∧ (∀ u e, member (prop args "request") "url" = Ok u →
       Client.search_param w u "complete" = Throw e →
       (Client.loadTasks w args).2 = Ok (VArr []))
  ∧ (∀ u complete,
       member (prop args "request") "url" = Ok u →
       Client.search_param w u "complete" = Ok complete →
       (∀ e, Client.fetch w (Client.endpoint_for complete) = Throw e →
          (Client.loadTasks w args).2 = Ok (VArr []))
       ∧ (∀ r, Client.fetch w (Client.endpoint_for complete) = Ok r →
            Client.ok r = false →
            (Client.loadTasks w args).2 = Ok (VArr []))
       ∧ (∀ r e, Client.fetch w (Client.endpoint_for complete) = Ok r →
            Client.ok r = true → Client.json r = Throw e →
            (Client.loadTasks w args).2 = Ok (VArr []))
       ∧ (∀ r data, Client.fetch w (Client.endpoint_for complete) = Ok r →
            Client.ok r = true → Client.json r = Ok data →
            (Client.loadTasks w args).2 = Ok data)).
Proof.
  split; [|split; [|split]].
  - rewrite loadTasks_result.
    destruct (Client.loadTasks_try w (prop args "request")).2; by eexists.
  - intros e He. rewrite loadTasks_result. unfold Client.loadTasks_try. by rewrite He.
  - intros u e Hu He. rewrite loadTasks_result. unfold Client.loadTasks_try.
    rewrite Hu. cbn [Client.cbind]. by rewrite He.
  - intros u complete Hu Hc.
    rewrite loadTasks_result, (loadTasks_try_fetch _ u complete Hu Hc).
    split; [|split; [|split]].
    + by intros e ->.
    + intros r -> ->. cbv zeta.
      match goal with |- context [member ?x "error"] => destruct (member x "error") as [e|e] end;
        [|done].
      match goal with |- context [Client.new_Error ?x] => by destruct (Client.new_Error x) end.
    + by intros r e -> -> ->.
    + by intros r data -> -> ->.
Qed.

(** The failure is not silent: the last line written is an error line. *)
Lemma loadTasks_logs_failure (args : obj) (e : exn) :
  (Client.loadTasks_try w (prop args "request")).2 = Throw e →
  last (Client.loadTasks w args).1
    = Some (Client.Line Client.Err "Error loading tasks:" (VStr (message e))).
Proof.
  intros He. unfold Client.loadTasks.
  destruct (Client.loadTasks_try w (prop args "request")) as [lines [data|e']];
    cbn [snd] in He; [discriminate|].
  injection He as ->. cbn [fst]. by rewrite last_snoc.
Qed.

End Loader.

Lemma loadTasks_never_throws_witness :
  (Client.loadTasks offline (loader_args "http://localhost:5173/")).2 = Ok (VArr [])
  ∧ (Client.loadTasks
       (serving (Client.Response false 500 (Ok (error_body "boom"))))
       (loader_args "http://localhost:5173/?complete=true")).2 = Ok (VArr [])
  ∧ (Client.loadTasks
       (serving (Client.Response true 200 (Ok (VArr [VObj milk]))))
       (loader_args "http://localhost:5173/")).2 = Ok (VArr [VObj milk]).
Proof.
  split; [|split].
  - destruct (loadTasks_never_throws offline (loader_args "http://localhost:5173/"))
      as (_ & _ & _ & Hfetch).
    destruct (Hfetch (VStr "http://localhost:5173/") None eq_refl eq_refl) as (Hoff & _).
    by apply (Hoff (TypeError "fetch failed")).
  - destruct (loadTasks_never_throws
                (serving (Client.Response false 500 (Ok (error_body "boom"))))
                (loader_args "http://localhost:5173/?complete=true"))
      as (_ & _ & _ & Hfetch).
    destruct (Hfetch (VStr "http://localhost:5173/?complete=true") (Some "true")
                eq_refl eq_refl) as (_ & Hbad & _).
    by apply (Hbad (Client.Response false 500 (Ok (error_body "boom")))).
  - destruct (loadTasks_never_throws
                (serving (Client.Response true 200 (Ok (VArr [VObj milk]))))
                (loader_args "http://localhost:5173/"))
      as (_ & _ & _ & Hfetch).
    destruct (Hfetch (VStr "http://localhost:5173/") None eq_refl eq_refl)
      as (_ & _ & _ & Hgood).
    by apply (Hgood (Client.Response true 200 (Ok (VArr [VObj milk]))) (VArr [VObj milk])).
Defined.

(** * Further properties of the handlers *)

(** ** The normaliser, field by field *)

Lemma round_trip_cases (c : Mongo.collection) :
  Mongo.round_trip c = (Mongo.after_call c, Ok ())
  ∨ ∃ m : string, Mongo.round_trip c = (Mongo.after_call c, Throw (DriverError m)).
Proof.
  destruct c as [ds n fs]. unfold Mongo.round_trip, Mongo.after_call.
  cbn [Mongo.docs Mongo.next_id Mongo.faults].
  destruct fs as [|[m|] rest]; cbn [tail]; eauto.
Qed.

Lemma map_throw_fails {A B} (f : A → outcome B) (xs : list A) (x : A) (e : exn) :
  x ∈ xs → f x = Throw e → ∃ e' : exn, map_throw f xs = Throw e'.
Proof.
  intros Hin Hx. induction Hin as [x xs | x y xs _ IH]; cbn [map_throw].
  - rewrite Hx. by eexists.
  - destruct (f y) as [b|e1]; cbn [obind]; [|by eexists].
    destruct (IH Hx) as [e' ->]. by eexists.
Qed.

Section NormaliserProperties.
Context `{Host}.

(** X1.  On a record whose [_id] converts to the string [s], the normaliser
    returns the record with [id] set to [s] (replacing an [id] the record
    may already have) and every other field, [_id] included, as it was. *)
Theorem transformTaskDocument_adds_id (d : obj) (s : string) :
  js_toString (prop d "_id") = Ok s →
  ∃ task : obj,
    Mongo.transformTaskDocument (VObj d) = Ok (VObj task)
    ∧ task !! "id" = Some (VStr s)
    ∧ task !! "_id" = d !! "_id"
    ∧ ∀ k : string, k ≠ "id" → task !! k = d !! k.
Proof.
  intros Hs. exists (<["id" := VStr s]> d).
  unfold Mongo.transformTaskDocument. cbn [truthy negb]. rewrite Hs. cbn [obind].
  split; [done|]. split; [by rewrite lookup_insert_eq|].
  split; [by rewrite lookup_insert_ne|].
  intros k Hk. by rewrite lookup_insert_ne.
Qed.

Lemma transformTaskDocument_throws_without_id (d : obj) :
  d !! "_id" = None →
  ∃ m : string, Mongo.transformTaskDocument (VObj d) = Throw (TypeError m).
Proof.
  intros Hd. unfold Mongo.transformTaskDocument, prop. cbn [truthy negb].
  rewrite Hd. cbn [default from_option id js_toString obind]. by eexists.
Qed.

(** X2.  A record without [_id], or whose [_id] is [null], makes the
    normaliser throw a TypeError; anything falsy is turned into [null]. *)
Theorem transformTaskDocument_without_id (d : obj) (v : value) :
  (d !! "_id" = None ∨ d !! "_id" = Some VNull ∨ d !! "_id" = Some VUndef →
   ∃ m : string, Mongo.transformTaskDocument (VObj d) = Throw (TypeError m))
  ∧ (truthy v = false → Mongo.transformTaskDocument v = Ok VNull).
Proof.
  split.
  - intros Hd. unfold Mongo.transformTaskDocument, prop. cbn [truthy negb].
    destruct Hd as [-> | [-> | ->]]; cbn [default from_option id js_toString obind];
      by eexists.
  - intros Hv. unfold Mongo.transformTaskDocument. by rewrite Hv.
Qed.

End NormaliserProperties.

Lemma transformTaskDocument_adds_id_witness :
  ∃ task : obj,
    Mongo.transformTaskDocument (VObj milk) = Ok (VObj task)
    ∧ task !! "id" = Some (VStr "65f1a2b3c4d5e6f708192a3b")
    ∧ task !! "title" = Some (VStr "Buy milk").
Proof.
  destruct (transformTaskDocument_adds_id milk "65f1a2b3c4d5e6f708192a3b" eq_refl)
    as (task & Hrun & Hid & _ & Hrest).
  exists task. split; [exact Hrun|]. split; [exact Hid|].
  rewrite Hrest by discriminate. reflexivity.
Defined.

Lemma transformTaskDocument_without_id_witness :
  (∃ m : string, Mongo.transformTaskDocument (VObj {[ "title" := VStr "orphan" ]})
                 = Throw (TypeError m))
  ∧ Mongo.transformTaskDocument VNull = Ok VNull.
Proof.
  destruct (transformTaskDocument_without_id {[ "title" := VStr "orphan" ]} VNull)
    as [Hthrow Hnull].
  split; [apply Hthrow; left; reflexivity | apply Hnull; reflexivity].
Defined.

(** ** GET on the MongoDB server *)

Lemma find_cases (q : obj) (c : Mongo.collection) :
  Mongo.find q c = (Mongo.after_call c, Ok (List.filter (Mongo.matches q) (Mongo.docs c)))
  ∨ ∃ m : string, Mongo.find q c = (Mongo.after_call c, Throw (DriverError m)).
Proof.
  unfold Mongo.find. destruct (round_trip_cases c) as [Hr | [m Hr]].
  - left. by rewrite (bind_ok _ _ _ _ _ Hr).
  - right. exists m. by rewrite (bind_throw _ _ _ _ _ Hr).
Qed.

Lemma findOne_cases (q : obj) (c : Mongo.collection) :
  Mongo.findOne q c =
    (Mongo.after_call c,
     Ok (from_option VObj VNull (head (List.filter (Mongo.matches q) (Mongo.docs c)))))
  ∨ ∃ m : string, Mongo.findOne q c = (Mongo.after_call c, Throw (DriverError m)).
Proof.
  unfold Mongo.findOne. destruct (round_trip_cases c) as [Hr | [m Hr]].
  - left. by rewrite (bind_ok _ _ _ _ _ Hr).
  - right. exists m. by rewrite (bind_throw _ _ _ _ _ Hr).
Qed.

Lemma findOne_fault (q : obj) (c : Mongo.collection) (m : string)
    (rest : list (option string)) :
  Mongo.faults c = Some m :: rest →
  Mongo.findOne q c =
    (Mongo.Collection (Mongo.docs c) (Mongo.next_id c) rest, Throw (DriverError m)).
Proof.
  intros Hf. unfold Mongo.findOne.
  by rewrite (bind_throw _ _ _ _ _ (round_trip_fault c m rest Hf)).
Qed.

Section GetProperties.
Context `{Host}.

Lemma transformTaskDocument_Ok_id (d : obj) (t : value) :
  Mongo.transformTaskDocument (VObj d) = Ok t →
  ∃ (o : obj) (s : string), t = VObj o ∧ o !! "id" = Some (VStr s).
Proof.
  unfold Mongo.transformTaskDocument. cbn [truthy negb].
  destruct (js_toString (prop d "_id")) as [s|e]; cbn [obind]; [|discriminate].
  intros [= <-]. eexists _, s. split; [done|]. by rewrite lookup_insert_eq.
Qed.

Lemma map_throw_transform_ids (ds : list obj) (ts : list value) :
  map_throw Mongo.transformTaskDocument (VObj <$> ds) = Ok ts →
  length ts = length ds
  ∧ Forall (λ t, ∃ (o : obj) (s : string), t = VObj o ∧ o !! "id" = Some (VStr s)) ts.
Proof.
  revert ts. induction ds as [|d ds IH]; intros ts; cbn [fmap list_fmap map_throw].
  - intros [= <-]. by split.
  - destruct (Mongo.transformTaskDocument (VObj d)) as [t|e] eqn:Et; cbn [obind];
      [|discriminate].
    destruct (map_throw Mongo.transformTaskDocument (VObj <$> ds)) as [ts'|e] eqn:Ets;
      cbn [obind]; [|discriminate].
    intros [= <-]. destruct (IH ts' eq_refl) as [Hlen Hall].
    split; [cbn [length]; by rewrite Hlen|].
    constructor; [by apply (transformTaskDocument_Ok_id d)|done].
Qed.

(** X3.  [GET /api/tasks] always answers, with 200 and an array or with 500
    and an error message; each element of the array is a task with a string
    [id], and there are no more of them than stored documents.  The documents
    and the id counter are never changed. *)
Theorem get_tasks_replies (req : request) (c : Mongo.collection) :
  Mongo.docs (Mongo.get_tasks req c).1 = Mongo.docs c
  ∧ Mongo.next_id (Mongo.get_tasks req c).1 = Mongo.next_id c
  ∧ ((∃ ts : list value,
        (Mongo.get_tasks req c).2 = Responded 200 (VArr ts)
        ∧ (length ts ≤ length (Mongo.docs c))%nat
        ∧ Forall (λ t, ∃ (o : obj) (s : string), t = VObj o ∧ o !! "id" = Some (VStr s)) ts)
     ∨ ∃ m : string, (Mongo.get_tasks req c).2 = Responded 500 (error_body m)).
Proof.
  unfold Mongo.get_tasks, handle, try_catch.
  destruct (find_cases (Mongo.list_filter (query req)) c) as [Hf | [m Hf]].
  - rewrite (bind_ok _ _ _ _ _ Hf). unfold bind, lift, ret.
    destruct (map_throw _ _) as [ts|e] eqn:Ets; cbn [fst snd].
    + split; [done|]. split; [done|]. left. exists ts. split; [done|].
      destruct (map_throw_transform_ids _ _ Ets) as [Hlen Hall].
      split; [|done]. rewrite Hlen. apply List.filter_length_le.
    + split; [done|]. split; [done|]. right. by eexists.
  - rewrite (bind_throw _ _ _ _ _ Hf). cbn [fst snd]. unfold ret.
    split; [done|]. split; [done|]. right. by eexists.
Qed.

(** X4.  One record that the normaliser cannot convert fails the whole
    list: when the filter lets through a document without [_id], the answer
    is 500 and no task is returned. *)
Theorem get_tasks_one_bad_record (req : request) (c : Mongo.collection) (d : obj) :
  next_ok (Mongo.faults c) = true →
  query req !! "complete" = None →
  d ∈ Mongo.docs c →
  d !! "_id" = None →
  ∃ m : string,
    Mongo.get_tasks req c = (Mongo.after_call c, Responded 500 (error_body m)).
Proof.
  intros Hok Hq Hin Hd. unfold Mongo.get_tasks, handle, try_catch.
  rewrite (bind_ok _ _ _ _ _ (find_ok _ c Hok)).
  rewrite (list_filter_absent _ Hq), filter_all
    by (apply Forall_forall; intros ? _; apply matches_empty).
  destruct (transformTaskDocument_throws_without_id d Hd) as [msg Hmsg].
  destruct (map_throw_fails Mongo.transformTaskDocument (VObj <$> Mongo.docs c)
              (VObj d) _ (list_elem_of_fmap_2 VObj _ _ Hin) Hmsg) as [e He].
  unfold bind, lift, ret. rewrite He. by eexists.
Qed.

Lemma get_task_run_found (req : request) (c : Mongo.collection)
    (pre post : list obj) (d : obj) :
  Mongo.is_hex24 (params_id req) = true →
  next_ok (Mongo.faults c) = true →
  Mongo.docs c = pre ++ d :: post →
  absent (VOid (string_map lower_hex (params_id req))) pre →
  prop d "_id" = VOid (string_map lower_hex (params_id req)) →
  Mongo.get_task req c =
    (Mongo.after_call c,
     Responded 200 (VObj (<["id" := VStr (string_map lower_hex (params_id req))]> d))).
Proof.
  intros Hid Hok Hdocs Hpre Hd. unfold Mongo.get_task, handle, try_catch.
  rewrite (ObjectId_well_formed _ Hid), (bind_ok _ _ c c _ eq_refl).
  rewrite (bind_ok _ _ _ _ _ (findOne_ok _ c Hok)). rewrite Hdocs.
  rewrite (filter_first _ _ _ _ (absent_no_match _ _ Hpre) (matches_id _ _ Hd)).
  cbn [from_option truthy negb]. unfold bind, lift, ret.
  by rewrite (transformTaskDocument_oid _ _ Hd).
Qed.

(** X5.  [GET /api/tasks/:id] on the id of a stored task, written in either
    case: 200 with the task, whose [id] is the lower-case text of the id and
    whose other fields are the stored ones; the documents are not changed. *)
Theorem get_task_found (req : request) (c : Mongo.collection)
    (pre post : list obj) (d : obj) :
  Mongo.is_hex24 (params_id req) = true →
  next_ok (Mongo.faults c) = true →
  Mongo.docs c = pre ++ d :: post →
  absent (VOid (string_map lower_hex (params_id req))) pre →
  prop d "_id" = VOid (string_map lower_hex (params_id req)) →
  ∃ task : obj,
    Mongo.get_task req c = (Mongo.after_call c, Responded 200 (VObj task))
    ∧ task !! "id" = Some (VStr (string_map lower_hex (params_id req)))
    ∧ (∀ k : string, k ≠ "id" → task !! k = d !! k)
    ∧ Mongo.docs (Mongo.get_task req c).1 = Mongo.docs c.
Proof.
  intros Hid Hok Hdocs Hpre Hd. eexists.
  rewrite (get_task_run_found req c pre post d Hid Hok Hdocs Hpre Hd).
  split; [done|]. split; [by rewrite lookup_insert_eq|].
  split; [|done]. intros k Hk. by rewrite lookup_insert_ne.
Qed.

(** X6.  When the driver fails on [GET /api/tasks/:id], the answer is 500
    "Invalid ID format" although the id is well formed: the handler's
    [catch] does not tell the two apart. *)
Theorem get_task_driver_failure_mislabelled (req : request) (c : Mongo.collection)
    (m : string) (rest : list (option string)) :
  Mongo.is_hex24 (params_id req) = true →
  Mongo.faults c = Some m :: rest →
  Mongo.get_task req c =
    (Mongo.Collection (Mongo.docs c) (Mongo.next_id c) rest,
     Responded 500 (error_body "Invalid ID format")).
Proof.
  intros Hid Hf. unfold Mongo.get_task, handle, try_catch.
  rewrite (ObjectId_well_formed _ Hid), (bind_ok _ _ c c _ eq_refl).
  by rewrite (bind_throw _ _ _ _ _ (findOne_fault _ c m rest Hf)).
Qed.

End GetProperties.

Lemma get_tasks_one_bad_record_witness :
  ∃ m : string,
    Mongo.get_tasks (Request "" ∅ VUndef)
      (Mongo.Collection [milk; {[ "title" := VStr "orphan" ]}] 8 [])
    = (Mongo.Collection [milk; {[ "title" := VStr "orphan" ]}] 8 [],
       Responded 500 (error_body m)).
Proof.
  apply (get_tasks_one_bad_record (Request "" ∅ VUndef)
           (Mongo.Collection [milk; {[ "title" := VStr "orphan" ]}] 8 [])
           {[ "title" := VStr "orphan" ]}).
  - reflexivity.
  - reflexivity.
  - right. left.
  - reflexivity.
Defined.

Lemma get_task_found_witness :
  ∃ task : obj,
    Mongo.get_task (Request "65F1A2B3C4D5E6F708192A3B" ∅ VUndef) one_task
    = (one_task, Responded 200 (VObj task))
    ∧ task !! "id" = Some (VStr "65f1a2b3c4d5e6f708192a3b")
    ∧ task !! "title" = Some (VStr "Buy milk").
Proof.
  destruct (get_task_found (Request "65F1A2B3C4D5E6F708192A3B" ∅ VUndef) one_task [] [] milk)
    as (task & Hrun & Hid & Hrest & _).
  - reflexivity.
  - reflexivity.
  - reflexivity.
  - constructor.
  - reflexivity.
  - exists task. split; [exact Hrun|]. split; [exact Hid|].
    rewrite Hrest by discriminate. reflexivity.
Defined.

Lemma get_task_driver_failure_mislabelled_witness :
  Mongo.get_task (Request "65f1a2b3c4d5e6f708192a3b" ∅ VUndef)
    (Mongo.Collection [milk] 8 [Some "connection lost"])
  = (one_task, Responded 500 (error_body "Invalid ID format")).
Proof.
  apply (get_task_driver_failure_mislabelled (Request "65f1a2b3c4d5e6f708192a3b" ∅ VUndef)
           (Mongo.Collection [milk] 8 [Some "connection lost"]) "connection lost" []).
  - reflexivity.
  - reflexivity.
Defined.

(** ** ObjectId texts *)

Lemma lower_hex_is_hex (a : Ascii.ascii) :
  is_hex a = true → is_hex (lower_hex a) = true ∧ lower_hex (lower_hex a) = lower_hex a.
Proof.
  destruct a as [[] [] [] [] [] [] [] []]; vm_compute; intros ?; by split.
Qed.

Lemma string_map_lower_hex (s : string) :
  string_forallb is_hex s = true →
  string_forallb is_hex (string_map lower_hex s) = true
  ∧ string_map lower_hex (string_map lower_hex s) = string_map lower_hex s.
Proof.
  induction s as [|a s IH]; cbn [string_forallb string_map]; [done|].
  intros [Ha Hs]%andb_true_iff. destruct (lower_hex_is_hex a Ha) as [Ha1 Ha2].
  destruct (IH Hs) as [Hs1 Hs2]. by rewrite Ha1, Hs1, Ha2, Hs2.
Qed.

Lemma string_map_length (f : Ascii.ascii → Ascii.ascii) (s : string) :
  String.length (string_map f s) = String.length s.
Proof. induction s as [|a s IH]; cbn [string_map String.length]; by rewrite ?IH. Qed.

Lemma hex_digit_is_hex (n : N) :
  is_hex (hex_digit (n mod 16)%N) = true
  ∧ lower_hex (hex_digit (n mod 16)%N) = hex_digit (n mod 16)%N.
Proof.
  pose proof (N.mod_upper_bound n 16 ltac:(done)) as Hlt.
  destruct (n mod 16)%N as [|p]; [split; reflexivity|].
  destruct p as [[[[p|p|]|[p|p|]|]|[[p|p|]|[p|p|]|]|]|[[[p|p|]|[p|p|]|]|[[p|p|]|[p|p|]|]|]|];
    try lia; split; reflexivity.
Qed.

Lemma hex_of_spec (digits : nat) (n : N) (acc : string) :
  String.length (hex_of digits n acc) = (digits + String.length acc)%nat
  ∧ string_forallb is_hex (hex_of digits n acc) = string_forallb is_hex acc
  ∧ string_map lower_hex (hex_of digits n acc) = hex_of digits n (string_map lower_hex acc).
Proof.
  revert n acc. induction digits as [|digits IH]; intros n acc; cbn [hex_of]; [done|].
  destruct (IH (n / 16)%N (String (hex_digit (n mod 16)%N) acc)) as (Hlen & Hall & Hlow).
  destruct (hex_digit_is_hex n) as [Hh Hl].
  rewrite Hlen, Hall, Hlow. cbn [String.length string_forallb string_map].
  rewrite Hh, Hl. split; [lia|done].
Qed.

Lemma generate_well_formed (n : N) :
  Mongo.is_hex24 (hex_of 24 n "") = true
  ∧ string_map lower_hex (hex_of 24 n "") = hex_of 24 n "".
Proof.
  destruct (hex_of_spec 24 n "") as (Hlen & Hall & Hlow).
  unfold Mongo.is_hex24. rewrite Hlen, Hall, Hlow. by split.
Qed.

(** An id text is accepted exactly when it has 24 hexadecimal digits;
    the ObjectId made from it prints in lower case, and reading that text
    back gives the same ObjectId.  The ids the driver generates are such
    texts. *)
Theorem ObjectId_round_trip (id : string) (n : N) :
  (Mongo.is_hex24 id = true →
     ∃ hex : string,
       Mongo.ObjectId id = Ok (VOid hex)
       ∧ String.length hex = 24%nat
       ∧ Mongo.ObjectId hex = Ok (VOid hex))
  ∧ (Mongo.is_hex24 id = false → ∃ e : exn, Mongo.ObjectId id = Throw e)
  ∧ Mongo.ObjectId (hex_of 24 n "") = Ok (Mongo.generate n).
Proof.
  split; [|split].
  - intros Hid. exists (string_map lower_hex id).
    rewrite (ObjectId_well_formed _ Hid).
    unfold Mongo.is_hex24 in Hid. apply andb_true_iff in Hid as [Hlen Hall].
    apply Nat.eqb_eq in Hlen. destruct (string_map_lower_hex id Hall) as [H1 H2].
    split; [done|]. split; [by rewrite string_map_length|].
    unfold Mongo.ObjectId, Mongo.is_hex24.
    by rewrite string_map_length, Hlen, H1, H2.
  - intros Hid. rewrite (ObjectId_malformed _ Hid). by eexists.
  - destruct (generate_well_formed n) as [Hok Hlow].
    by rewrite (ObjectId_well_formed _ Hok), Hlow.
Qed.

Lemma ObjectId_round_trip_witness :
  Mongo.ObjectId "65F1A2B3C4D5E6F708192A3B" = Ok (VOid "65f1a2b3c4d5e6f708192a3b")
  ∧ (∃ e : exn, Mongo.ObjectId "65f1a2b3c4d5e6f708192a3" = Throw e).
Proof.
  destruct (ObjectId_round_trip "65F1A2B3C4D5E6F708192A3B" 0) as (Hgood & _ & _).
  destruct (ObjectId_round_trip "65f1a2b3c4d5e6f708192a3" 0) as (_ & Hbad & _).
  split; [|by apply Hbad].
  destruct (Hgood eq_refl) as (hex & Hrun & _). rewrite Hrun.
  vm_compute in Hrun. exact (eq_sym Hrun).
Defined.

(** ** DELETE on the MongoDB server *)

Lemma remove_first_length {A} (p : A → bool) (xs : list A) :
  existsb p xs = true → (length (Mongo.remove_first p xs) + 1 = length xs)%nat.
Proof.
  induction xs as [|x xs IH]; cbn [existsb Mongo.remove_first length]; [discriminate|].
  destruct (p x); cbn [orb length]; [lia|]. intros Hex. specialize (IH Hex). lia.
Qed.

Lemma deleteOne_cases (q : obj) (c : Mongo.collection) :
  (existsb (Mongo.matches q) (Mongo.docs c) = true
   ∧ Mongo.deleteOne q c =
       (Mongo.Collection (Mongo.remove_first (Mongo.matches q) (Mongo.docs c))
          (Mongo.next_id c) (tail (Mongo.faults c)), Ok 1))
  ∨ (existsb (Mongo.matches q) (Mongo.docs c) = false
     ∧ Mongo.deleteOne q c = (Mongo.after_call c, Ok 0))
  ∨ ∃ m : string, Mongo.deleteOne q c = (Mongo.after_call c, Throw (DriverError m)).
Proof.
  unfold Mongo.deleteOne. destruct (round_trip_cases c) as [Hr | [m Hr]].
  - rewrite (bind_ok _ _ _ _ _ Hr). unfold Mongo.after_call, Mongo.with_docs.
    cbn [Mongo.docs Mongo.next_id Mongo.faults].
    destruct (existsb _ _) eqn:E; [left | right; left]; by split.
  - right. right. exists m. by rewrite (bind_throw _ _ _ _ _ Hr).
Qed.

Section DeleteProperties.
Context `{Host}.

Lemma delete_task_found (req : request) (c : Mongo.collection)
    (pre post : list obj) (d : obj) :
  Mongo.is_hex24 (params_id req) = true →
  next_ok (Mongo.faults c) = true →
  Mongo.docs c = pre ++ d :: post →
  absent (VOid (string_map lower_hex (params_id req))) pre →
  prop d "_id" = VOid (string_map lower_hex (params_id req)) →
  Mongo.delete_task req c =
    (Mongo.Collection (pre ++ post) (Mongo.next_id c) (tail (Mongo.faults c)),
     Responded 200 (message_body "Task deleted successfully")).
Proof.
  intros Hid Hok Hdocs Hpre Hd. unfold Mongo.delete_task, handle, try_catch.
  rewrite (ObjectId_well_formed _ Hid), (bind_ok _ _ c c _ eq_refl).
  by rewrite (bind_ok _ _ _ _ _ (deleteOne_found _ c pre post d Hok Hdocs Hpre Hd)).
Qed.

Lemma delete_task_missing (req : request) (c : Mongo.collection) :
  Mongo.is_hex24 (params_id req) = true →
  next_ok (Mongo.faults c) = true →
  absent (VOid (string_map lower_hex (params_id req))) (Mongo.docs c) →
  Mongo.delete_task req c =
    (Mongo.after_call c, Responded 404 (error_body (not_found_text (params_id req)))).
Proof.
  intros Hid Hok Habs. unfold Mongo.delete_task, handle, try_catch.
  rewrite (ObjectId_well_formed _ Hid), (bind_ok _ _ c c _ eq_refl).
  by rewrite (bind_ok _ _ _ _ _ (deleteOne_missing _ c Hok Habs)).
Qed.

(** X7.  [DELETE /api/tasks/:id] always answers, with 200, 404 or 500.  It
    answers 200 only when it has removed a document, and then exactly one;
    with any other answer the documents are what they were. *)
Theorem delete_task_200_iff_removed (req : request) (c : Mongo.collection) :
  (∃ (s : Z) (b : value),
     (Mongo.delete_task req c).2 = Responded s b ∧ (s = 200 ∨ s = 404 ∨ s = 500))
  ∧ (status_of (Mongo.delete_task req c).2 = Some 200 →
     (length (Mongo.docs (Mongo.delete_task req c).1) + 1 = length (Mongo.docs c))%nat)
  ∧ (status_of (Mongo.delete_task req c).2 ≠ Some 200 →
     Mongo.docs (Mongo.delete_task req c).1 = Mongo.docs c).
Proof.
  unfold Mongo.delete_task, handle, try_catch.
  destruct (Mongo.ObjectId (params_id req)) as [k|e] eqn:Ek.
  - rewrite (bind_ok _ _ c c _ eq_refl).
    destruct (deleteOne_cases {[ "_id" := k ]} c) as [[Hex Hd] | [[Hex Hd] | [m Hd]]].
    + rewrite (bind_ok _ _ _ _ _ Hd). cbn [Z.eqb fst snd status_of Mongo.docs]. unfold ret.
      cbn [fst snd status_of Mongo.docs].
      split; [eexists _, _; split; [done | by left]|].
      split; [intros _; by apply remove_first_length | done].
    + rewrite (bind_ok _ _ _ _ _ Hd). cbn [Z.eqb]. unfold ret.
      cbn [fst snd status_of Mongo.docs Mongo.after_call].
      split; [eexists _, _; split; [done | right; by left]|].
      split; [discriminate | done].
    + rewrite (bind_throw _ _ _ _ _ Hd). unfold ret.
      cbn [fst snd status_of Mongo.docs Mongo.after_call].
      split; [eexists _, _; split; [done | right; by right]|].
      split; [discriminate | done].
  - rewrite (bind_throw _ _ c c _ eq_refl). unfold ret. cbn [fst snd status_of].
    split; [eexists _, _; split; [done | right; by right]|].
    split; [discriminate | done].
Qed.

End DeleteProperties.

Lemma delete_task_200_iff_removed_witness :
  status_of (Mongo.delete_task (Request "65f1a2b3c4d5e6f708192a3b" ∅ VUndef) one_task).2 = Some 200
  ∧ length (Mongo.docs (Mongo.delete_task (Request "65f1a2b3c4d5e6f708192a3b" ∅ VUndef) one_task).1)
    = 0%nat
  ∧ Mongo.docs (Mongo.delete_task (Request "65f1a2b3c4d5e6f708192a3c" ∅ VUndef) one_task).1 = [milk].
Proof.
  destruct (delete_task_200_iff_removed (Request "65f1a2b3c4d5e6f708192a3b" ∅ VUndef) one_task)
    as (_ & Hdel & _).
  destruct (delete_task_200_iff_removed (Request "65f1a2b3c4d5e6f708192a3c" ∅ VUndef) one_task)
    as (_ & _ & Hkeep).
  split; [vm_compute; reflexivity|]. split.
  - specialize (Hdel ltac:(vm_compute; reflexivity)).
    cbn [one_task Mongo.docs length] in Hdel. lia.
  - apply Hkeep. vm_compute. discriminate.
Defined.

(** ** Sequences of requests on the MongoDB server *)

Section RoundTrips.
Context `{Host}.

Lemma get_task_missing (req : request) (c : Mongo.collection) :
  Mongo.is_hex24 (params_id req) = true →
  next_ok (Mongo.faults c) = true →
  absent (VOid (string_map lower_hex (params_id req))) (Mongo.docs c) →
  Mongo.get_task req c =
    (Mongo.after_call c, Responded 404 (error_body (not_found_text (params_id req)))).
Proof.
  intros Hid Hok Habs. unfold Mongo.get_task, handle, try_catch.
  rewrite (ObjectId_well_formed _ Hid), (bind_ok _ _ c c _ eq_refl).
  rewrite (bind_ok _ _ _ _ _ (findOne_ok _ c Hok)).
  by rewrite (filter_none _ _ (absent_no_match _ _ Habs)).
Qed.

(** X8.  A task just created can be read back: after a successful POST,
    [GET /api/tasks/<the generated id>] answers 200 with the created
    document and its [id]. *)
Theorem post_then_get (now later : Z) (req : request) (b : obj)
    (c : Mongo.collection) :
  body req = VObj b →
  truthy (prop b "title") = true →
  next_ok (Mongo.faults c) = true →
  next_ok (tail (Mongo.faults c)) = true →
  next_ok (tail (tail (Mongo.faults c))) = true →
  absent (Mongo.generate (Mongo.next_id c)) (Mongo.docs c) →
  ∃ (hex : string) (created : obj),
    (Mongo.post_task now later req c).2 = Responded 201 (VObj created)
    ∧ created !! "_id" = Some (VOid hex)
    ∧ ∀ (q : obj) (sent : value),
        (Mongo.get_task (Request hex q sent) (Mongo.post_task now later req c).1).2
        = Responded 200 (VObj (<["id" := VStr hex]> created)).
Proof.
  intros Hb Htitle Hok1 Hok2 Hok3 Hfresh.
  exists (hex_of 24 (Mongo.next_id c) ""), (stored_task now later b c).
  rewrite (post_task_run now later req b c Hb Htitle Hok1 Hok2 Hfresh). cbn [fst snd].
  destruct (stored_task_fields now later b c Htitle) as (Hid & _).
  destruct (generate_well_formed (Mongo.next_id c)) as [Hwf Hlow].
  split; [done|]. split; [exact Hid|]. intros q sent.
  rewrite (get_task_run_found (Request (hex_of 24 (Mongo.next_id c) "") q sent) _
             (Mongo.docs c) [] (stored_task now later b c)); cbn [params_id];
    rewrite ?Hlow; try done.
Qed.

(** X9.  An update can be read back: after a PUT whose body was parsed
    into an object, on a stored task, GET on the same id answers 200 with
    the very body the PUT answered. *)
Theorem put_then_get (now : Z) (req : request) (b : obj) (c : Mongo.collection)
    (pre post : list obj) (d : obj) :
  body req = VObj b →
  Mongo.is_hex24 (params_id req) = true →
  next_ok (Mongo.faults c) = true →
  next_ok (tail (Mongo.faults c)) = true →
  Mongo.docs c = pre ++ d :: post →
  absent (VOid (string_map lower_hex (params_id req))) pre →
  prop d "_id" = VOid (string_map lower_hex (params_id req)) →
  ∃ task : value,
    (Mongo.put_task now req c).2 = Responded 200 task
    ∧ (Mongo.get_task req (Mongo.put_task now req c).1).2 = Responded 200 task.
Proof.
  intros Hb Hid Hok1 Hok2 Hdocs Hpre Hd. eexists.
  rewrite (put_task_found now req b c pre post d Hb Hid Hok1 Hdocs Hpre Hd). cbn [fst snd].
  split; [done|].
  erewrite (get_task_run_found req _ pre post); [done|done|done|done|done|].
  destruct (apply_set_updateDoc now (prop b "title")
              (prop b "description") (prop b "complete") d)
    as (_ & _ & _ & _ & Hrest).
  unfold prop in *. by rewrite Hrest.
Qed.

(** X10.  A deleted task is gone: after a DELETE that answered 200 on a task
    whose [_id] no other document carries, GET on the same id answers 404,
    and so does a second DELETE. *)
Theorem delete_then_get (req : request) (c : Mongo.collection)
    (pre post : list obj) (d : obj) :
  Mongo.is_hex24 (params_id req) = true →
  next_ok (Mongo.faults c) = true →
  next_ok (tail (Mongo.faults c)) = true →
  Mongo.docs c = pre ++ d :: post →
  absent (VOid (string_map lower_hex (params_id req))) (pre ++ post) →
  prop d "_id" = VOid (string_map lower_hex (params_id req)) →
  status_of (Mongo.delete_task req c).2 = Some 200
  ∧ status_of (Mongo.get_task req (Mongo.delete_task req c).1).2 = Some 404
  ∧ status_of (Mongo.delete_task req (Mongo.delete_task req c).1).2 = Some 404.
Proof.
  intros Hid Hok1 Hok2 Hdocs Habs Hd.
  assert (absent (VOid (string_map lower_hex (params_id req))) pre) as Hpre.
  { unfold absent in *. by apply Forall_app in Habs as [? _]. }
  rewrite (delete_task_found req c pre post d Hid Hok1 Hdocs Hpre Hd). cbn [fst snd].
  split; [done|]. split.
  - by rewrite get_task_missing.
  - by rewrite delete_task_missing.
Qed.

End RoundTrips.

Lemma post_then_get_witness :
  ∃ (hex : string) (created : obj),
    (Mongo.post_task 1000 1001 buy_milk one_task).2 = Responded 201 (VObj created)
    ∧ (Mongo.get_task (Request hex ∅ VUndef)
         (Mongo.post_task 1000 1001 buy_milk one_task).1).2
      = Responded 200 (VObj (<["id" := VStr hex]> created)).
Proof.
  destruct (post_then_get 1000 1001 buy_milk {[ "title" := VStr "Buy milk" ]} one_task)
    as (hex & created & Hpost & _ & Hget).
  - reflexivity.
  - reflexivity.
  - reflexivity.
  - reflexivity.
  - reflexivity.
  - repeat constructor.
  - exists hex, created. split; [exact Hpost | apply Hget].
Defined.

Lemma put_then_get_witness :
  ∃ task : value,
    (Mongo.put_task 2000
       (Request "65f1a2b3c4d5e6f708192a3b" ∅ (VObj {[ "title" := VStr "Buy oat milk" ]}))
       one_task).2 = Responded 200 task
    ∧ (Mongo.get_task
         (Request "65f1a2b3c4d5e6f708192a3b" ∅ (VObj {[ "title" := VStr "Buy oat milk" ]}))
         (Mongo.put_task 2000
            (Request "65f1a2b3c4d5e6f708192a3b" ∅ (VObj {[ "title" := VStr "Buy oat milk" ]}))
            one_task).1).2 = Responded 200 task.
Proof.
  apply (put_then_get 2000
           (Request "65f1a2b3c4d5e6f708192a3b" ∅ (VObj {[ "title" := VStr "Buy oat milk" ]}))
           {[ "title" := VStr "Buy oat milk" ]} one_task [] [] milk).
  - reflexivity.
  - reflexivity.
  - reflexivity.
  - reflexivity.
  - reflexivity.
  - constructor.
  - reflexivity.
Defined.

Lemma delete_then_get_witness :
  status_of (Mongo.delete_task (Request "65f1a2b3c4d5e6f708192a3b" ∅ VUndef) one_task).2 = Some 200
  ∧ status_of (Mongo.get_task (Request "65f1a2b3c4d5e6f708192a3b" ∅ VUndef)
                 (Mongo.delete_task (Request "65f1a2b3c4d5e6f708192a3b" ∅ VUndef) one_task).1).2
    = Some 404
  ∧ status_of (Mongo.delete_task (Request "65f1a2b3c4d5e6f708192a3b" ∅ VUndef)
                 (Mongo.delete_task (Request "65f1a2b3c4d5e6f708192a3b" ∅ VUndef) one_task).1).2
    = Some 404.
Proof.
  apply (delete_then_get (Request "65f1a2b3c4d5e6f708192a3b" ∅ VUndef) one_task [] [] milk).
  - reflexivity.
  - reflexivity.
  - reflexivity.
  - reflexivity.
  - constructor.
  - reflexivity.
Defined.

(** ** What a POST stores *)

Section PostFields.
Context `{Host}.

(** X11.  The document a successful POST stores has exactly six fields:
    [_id], [title], [description], [complete], [createdAt], [updatedAt].
    Whatever else the request body carries (an [_id], an [id], a
    [createdAt]) is dropped, and two bodies that agree on [title],
    [description] and [complete] are handled alike. *)
Theorem post_task_stores_six_fields (now later : Z) (req req' : request) (b b' : obj)
    (c : Mongo.collection) :
  body req = VObj b →
  truthy (prop b "title") = true →
  next_ok (Mongo.faults c) = true →
  next_ok (tail (Mongo.faults c)) = true →
  absent (Mongo.generate (Mongo.next_id c)) (Mongo.docs c) →
  (∃ created : obj,
     (Mongo.post_task now later req c).2 = Responded 201 (VObj created)
     ∧ dom created
       = {[ "_id"; "title"; "description"; "complete"; "createdAt"; "updatedAt" ]}
     ∧ created !! "_id" = Some (Mongo.generate (Mongo.next_id c))
     ∧ created !! "createdAt" = Some (VDate now))
  ∧ (body req' = VObj b' →
     prop b' "title" = prop b "title" →
     prop b' "description" = prop b "description" →
     prop b' "complete" = prop b "complete" →
     Mongo.post_task now later req' c = Mongo.post_task now later req c).
Proof.
  intros Hb Htitle Hok1 Hok2 Hfresh. split.
  - exists (stored_task now later b c).
    rewrite (post_task_run now later req b c Hb Htitle Hok1 Hok2 Hfresh). cbn [snd].
    destruct (stored_task_fields now later b c Htitle) as (Hid & _ & _ & _ & Hc & _).
    split; [done|]. split; [|by split].
    unfold stored_task, Mongo.new_task.
    rewrite dom_fmap_L, dom_insert_L, dom_list_to_map_L.
    cbn [fmap list_fmap fst list_to_set foldr]. set_solver.
  - intros Hb' Ht Hd Hk. unfold Mongo.post_task. rewrite Hb, Hb'. cbn [destructure].
    rewrite !bind_lift_ok. by rewrite Ht, Hd, Hk.
Qed.

End PostFields.

Lemma post_task_stores_six_fields_witness :
  ∃ created : obj,
    (Mongo.post_task 1000 1001
       (Request "" ∅ (VObj (<["_id" := VStr "mine"]> (<["createdAt" := VNum 0]>
                              {[ "title" := VStr "Buy milk" ]}))))
       one_task).2 = Responded 201 (VObj created)
    ∧ created !! "_id" = Some (Mongo.generate 8)
    ∧ created !! "createdAt" = Some (VDate 1000).
Proof.
  destruct (post_task_stores_six_fields 1000 1001
              (Request "" ∅ (VObj (<["_id" := VStr "mine"]> (<["createdAt" := VNum 0]>
                                     {[ "title" := VStr "Buy milk" ]}))))
              buy_milk
              (<["_id" := VStr "mine"]> (<["createdAt" := VNum 0]>
                 {[ "title" := VStr "Buy milk" ]}))
              {[ "title" := VStr "Buy milk" ]} one_task)
    as [(created & Hrun & _ & Hid & Hc) _].
  - reflexivity.
  - reflexivity.
  - reflexivity.
  - reflexivity.
  - repeat constructor.
  - exists created. split; [exact Hrun|]. split; [exact Hid | exact Hc].
Defined.

(** ** Further properties of the Supabase server *)

Lemma supabase_round_trip_cases
    (run : Supabase.table → Supabase.table * Supabase.result) (t : Supabase.table) :
  next_ok (Supabase.faults t) = true
  ∨ ∃ (m : string) (rest : list (option string)), Supabase.faults t = Some m :: rest.
Proof.
  destruct (Supabase.faults t) as [|[m|] rest]; cbn [next_ok]; eauto.
Qed.

Lemma fmap_unmatched {A} (p : A → bool) (g : A → A) (xs : list A) :
  Forall (λ x, p x = false) xs → (λ x, if p x then g x else x) <$> xs = xs.
Proof.
  induction 1 as [|x xs Hx _ IH]; cbn [fmap list_fmap]; [done|].
  rewrite Hx. f_equal. exact IH.
Qed.

Section SupabaseMore.
Context `{Host} (sch : Supabase.schema).

(** X12.  [GET /api/tasks/:id] on the Supabase server answers 200 with a
    stored row or 404 "not found", never 500: a failure of the service and an
    id that is not valid for the column are both reported as "not found".
    The rows are never changed. *)
Theorem supabase_get_task_replies (req : request) (t : Supabase.table) :
  Supabase.rows (Supabase.get_task sch req t).1 = Supabase.rows t
  ∧ ((∃ row : obj,
        (Supabase.get_task sch req t).2 = Responded 200 (VObj row) ∧ row ∈ Supabase.rows t)
     ∨ (Supabase.get_task sch req t).2
       = Responded 404 (error_body (not_found_text (params_id req))))
  ∧ (∀ (m : string) (rest : list (option string)),
       Supabase.faults t = Some m :: rest →
       (Supabase.get_task sch req t).2
       = Responded 404 (error_body (not_found_text (params_id req))))
  ∧ (Supabase.key_parse sch (params_id req) = None →
     (Supabase.get_task sch req t).2
     = Responded 404 (error_body (not_found_text (params_id req)))).
Proof.
  assert (∀ (m : string) (rest : list (option string)),
            Supabase.faults t = Some m :: rest →
            Supabase.get_task sch req t =
              (Supabase.Table (Supabase.rows t) (Supabase.next_key t) rest,
               Responded 404 (error_body (not_found_text (params_id req))))) as Hfault.
  { intros m rest Hf. unfold Supabase.get_task, handle, Supabase.select_single.
    by rewrite (bind_ok _ _ _ _ _ (supabase_round_trip_fault _ t m rest Hf)). }
  assert (next_ok (Supabase.faults t) = true →
          Supabase.rows (Supabase.get_task sch req t).1 = Supabase.rows t
          ∧ ((∃ row : obj,
                (Supabase.get_task sch req t).2 = Responded 200 (VObj row)
                ∧ row ∈ Supabase.rows t)
             ∨ (Supabase.get_task sch req t).2
               = Responded 404 (error_body (not_found_text (params_id req))))
          ∧ (Supabase.key_parse sch (params_id req) = None →
             (Supabase.get_task sch req t).2
             = Responded 404 (error_body (not_found_text (params_id req))))) as Hrun.
  { intros Hok. unfold Supabase.get_task, handle, Supabase.select_single.
    destruct (Supabase.key_parse sch (params_id req)) as [k|] eqn:Ek.
    - destruct (List.filter (Supabase.column_is "id" k) (Supabase.rows t))
        as [|row [|row' more]] eqn:Ef.
      + erewrite bind_ok; [| rewrite (supabase_round_trip_ok _ t Hok); cbn [Supabase.rows]; rewrite Ef; reflexivity].
        cbn [Supabase.error fst snd Supabase.rows]. unfold ret. cbn [fst snd Supabase.rows].
        split; [done|]. split; [by right | done].
      + erewrite bind_ok; [| rewrite (supabase_round_trip_ok _ t Hok); cbn [Supabase.rows]; rewrite Ef; reflexivity].
        cbn [Supabase.error Supabase.data]. unfold ret. cbn [fst snd Supabase.rows].
        split; [done|]. split; [|done]. left. exists row. split; [done|].
        assert (In row (List.filter (Supabase.column_is "id" k) (Supabase.rows t))) as Hin
          by (rewrite Ef; by left).
        apply List.filter_In in Hin as [Hin _]. by apply list_elem_of_In.
      + erewrite bind_ok; [| rewrite (supabase_round_trip_ok _ t Hok); cbn [Supabase.rows]; rewrite Ef; reflexivity].
        cbn [Supabase.error]. unfold ret. cbn [fst snd Supabase.rows].
        split; [done|]. split; [by right | done].
    - erewrite bind_ok; [| rewrite (supabase_round_trip_ok _ t Hok); reflexivity].
      unfold Supabase.invalid_key. cbn [Supabase.error]. unfold ret.
      cbn [fst snd Supabase.rows]. split; [done|]. split; [by right | done]. }
  destruct (supabase_round_trip_cases (λ t, (t, Supabase.invalid_key)) t)
    as [Hok | (m & rest & Hf)].
  - destruct (Hrun Hok) as (Hrows & Hreply & Hkey).
    split; [done|]. split; [done|]. split; [|done].
    intros m rest Hf. by rewrite (Hfault m rest Hf).
  - rewrite (Hfault m rest Hf). cbn [fst snd Supabase.rows].
    split; [done|]. split; [by right|]. split; [|done].
    intros m' rest' Hf'. done.
Qed.

(** X13.  [PUT /api/tasks/:id] on the Supabase server with a body that was
    parsed and an id that matches no row: nothing is updated and the answer
    is 200 with no body ([data[0]] of an empty array), not 404. *)
Theorem supabase_put_task_no_match (req : request) (b : obj) (t : Supabase.table)
    (k : value) :
  destructure (body req) = Ok b →
  next_ok (Supabase.faults t) = true →
  Supabase.key_parse sch (params_id req) = Some k →
  Forall (λ row, Supabase.column_is "id" k row = false) (Supabase.rows t) →
  Supabase.put_task sch req t =
    (Supabase.Table (Supabase.rows t) (Supabase.next_key t) (tail (Supabase.faults t)),
     Responded 200 VUndef).
Proof.
  intros Hb Hok Hk Hnone. unfold Supabase.put_task, handle, Supabase.update_rows.
  rewrite Hb, bind_lift_ok.
  erewrite bind_ok; [| rewrite (supabase_round_trip_ok _ t Hok), Hk; reflexivity].
  unfold Supabase.with_rows.
  cbn [Supabase.error Supabase.data Supabase.rows Supabase.next_key Supabase.faults].
  rewrite (filter_none _ _ Hnone).
  cbn [fmap list_fmap index0 head default from_option id].
  unfold bind, lift, ret.
  by rewrite (fmap_unmatched _ _ _ Hnone).
Qed.


(** X15.  A successful POST on the Supabase server appends one row and
    answers 201 with it: the key is the one the database generates, the
    title is the body's, [complete] is [false] when the body has none, and
    a description the body omits is the column default of the table (not
    the empty string). *)
Theorem supabase_post_task_created (req : request) (b : obj) (t : Supabase.table) :
  body req = VObj b →
  truthy (prop b "title") = true →
  next_ok (Supabase.faults t) = true →
  ∃ row : obj,
    Supabase.post_task sch req t =
      (Supabase.Table (Supabase.rows t ++ [row]) (N.succ (Supabase.next_key t))
         (tail (Supabase.faults t)),
       Responded 201 (VObj row))
    ∧ row !! "id" = Some (Supabase.key_gen sch (Supabase.next_key t))
    ∧ row !! "title" = Some (prop b "title")
    ∧ row !! "complete" = Some (js_or (prop b "complete") (VBool false))
    ∧ (b !! "description" = None →
       row !! "description" = Supabase.column_defaults sch !! "description").
Proof.
  intros Hb Htitle Hok.
  destruct (supabase_post_task_row sch req b t Hb Htitle Hok)
    as (row & Hrun & Hid & Ht & Hk & Hd).
  exists row. split; [exact Hrun|]. split; [exact Hid|]. split; [exact Ht|].
  split; [exact Hk | exact Hd].
Qed.

End SupabaseMore.

Lemma supabase_get_task_replies_witness :
  (Supabase.get_task bigint_schema (Request "1" ∅ VUndef)
     (Supabase.Table [milk_row] 2 [Some "service unavailable"])).2
  = Responded 404 (error_body "Task with ID 1 not found")
  ∧ (Supabase.get_task bigint_schema (Request "abc" ∅ VUndef) one_row).2
    = Responded 404 (error_body "Task with ID abc not found").
Proof.
  destruct (supabase_get_task_replies bigint_schema (Request "1" ∅ VUndef)
              (Supabase.Table [milk_row] 2 [Some "service unavailable"]))
    as (_ & _ & Hfault & _).
  destruct (supabase_get_task_replies bigint_schema (Request "abc" ∅ VUndef) one_row)
    as (_ & _ & _ & Hkey).
  split; [by apply (Hfault "service unavailable" []) | by apply Hkey].
Defined.

Lemma supabase_put_task_no_match_witness :
  Supabase.put_task bigint_schema (Request "2" ∅ (VObj {[ "title" := VStr "x" ]})) one_row
  = (one_row, Responded 200 VUndef).
Proof.
  apply (supabase_put_task_no_match bigint_schema
           (Request "2" ∅ (VObj {[ "title" := VStr "x" ]})) {[ "title" := VStr "x" ]}
           one_row (VNum 2)).
  - reflexivity.
  - reflexivity.
  - reflexivity.
  - repeat constructor.
Defined.


Lemma supabase_post_task_created_witness :
  ∃ row : obj,
    (Supabase.post_task bigint_schema buy_milk one_row).2 = Responded 201 (VObj row)
    ∧ row !! "id" = Some (VNum 2)
    ∧ row !! "description" = Some VNull.
Proof.
  destruct (supabase_post_task_created bigint_schema buy_milk
              {[ "title" := VStr "Buy milk" ]} one_row)
    as (row & Hrun & Hid & _ & _ & Hd).
  - reflexivity.
  - reflexivity.
  - reflexivity.
  - exists row. split; [by rewrite Hrun|]. split; [exact Hid|].
    rewrite Hd; reflexivity.
Defined.

(** ** The other client requests *)

Section ClientRequests.
Context `{Host} (w : Client.world) (n : Client.network).

(** X16.  [loadTask(id)] with an id that converts to a string never throws:
    it fetches [/api/tasks/<id>] and returns the parsed body of an ok
    response; when [fetch] fails, the response is not ok, or the body is not
    JSON, it returns the placeholder task "Error loading task" carrying the
    id it was given, and writes one error line. *)
Theorem loadTask_falls_back (id : value) (s : string) :
  interpolate id = Ok s →
  let placeholder : value :=
    VObj (list_to_map [("id", id); ("title", VStr "Error loading task");
                       ("description", VStr ""); ("complete", VBool false)]) in
  (∃ v : value, (Client.loadTask w id).2 = Ok v)
  ∧ (∀ e, Client.fetch w ("/api/tasks/" +:+ s) = Throw e →
       (Client.loadTask w id).2 = Ok placeholder ∧ length (Client.loadTask w id).1 = 1%nat)
  ∧ (∀ r, Client.fetch w ("/api/tasks/" +:+ s) = Ok r → Client.ok r = false →
       Client.loadTask w id =
         ([Client.Line Client.Err ("Error loading task " +:+ s +:+ ":")
             (VStr ("Failed to fetch task with ID " +:+ s))],
          Ok placeholder))
  ∧ (∀ r e, Client.fetch w ("/api/tasks/" +:+ s) = Ok r → Client.ok r = true →
       Client.json r = Throw e → (Client.loadTask w id).2 = Ok placeholder)
  ∧ (∀ r task, Client.fetch w ("/api/tasks/" +:+ s) = Ok r → Client.ok r = true →
       Client.json r = Ok task → Client.loadTask w id = ([], Ok task)).
Proof.
  intros Hs placeholder.
  assert (Client.task_url id = Ok ("/api/tasks/" +:+ s)) as Hurl.
  { unfold Client.task_url. by rewrite Hs. }
  assert (∀ e, Client.loadTask_try w id = Throw e →
            Client.loadTask w id =
              ([Client.Line Client.Err ("Error loading task " +:+ s +:+ ":")
                  (VStr (message e))], Ok placeholder)) as Hcatch.
  { intros e He. unfold Client.loadTask. by rewrite He, Hs. }
  split; [|split; [|split; [|split]]].
  - destruct (Client.loadTask_try w id) as [v|e] eqn:E.
    + unfold Client.loadTask. rewrite E. by eexists.
    + rewrite (Hcatch e eq_refl). by eexists.
  - intros e He. rewrite (Hcatch e); [done|].
    unfold Client.loadTask_try. rewrite Hurl. cbn [obind]. by rewrite He.
  - intros r Hr Hok. rewrite (Hcatch (Error ("Failed to fetch task with ID " +:+ s))); [done|].
    unfold Client.loadTask_try. rewrite Hurl. cbn [obind]. rewrite Hr. cbn [obind].
    by rewrite Hok, Hs.
  - intros r e Hr Hok Hj. rewrite (Hcatch e); [done|].
    unfold Client.loadTask_try. rewrite Hurl. cbn [obind]. rewrite Hr. cbn [obind].
    by rewrite Hok.
  - intros r task Hr Hok Hj. unfold Client.loadTask, Client.loadTask_try.
    rewrite Hurl. cbn [obind]. rewrite Hr. cbn [obind]. by rewrite Hok, Hj.
Qed.

(** X17.  [createTask] has no fallback: a failure of [fetch] and a body that
    is not JSON are thrown on to the caller as they are, and every response
    that is not ok, whatever its status and body, becomes the error
    "Failed to create task".  The request is a POST of the data to
    [/api/tasks] with a JSON content type. *)
Theorem createTask_outcomes (taskData : value) :
  let sent := Client.fetch_with n "/api/tasks"
                (Client.Init "POST" [("Content-Type", "application/json")] (Some taskData)) in
  (∀ e, sent = Throw e → Client.createTask n taskData = Throw e)
  ∧ (∀ r, sent = Ok r → Client.ok r = false →
       Client.createTask n taskData = Throw (Error "Failed to create task"))
  ∧ (∀ r, sent = Ok r → Client.ok r = true →
       Client.createTask n taskData = Client.json r).
Proof.
  cbv zeta. unfold Client.createTask.
  change (Client.API_BASE +:+ "/tasks") with "/api/tasks".
  split; [|split].
  - by intros e ->.
  - intros r -> Hok. cbn [obind]. by rewrite Hok.
  - intros r -> Hok. cbn [obind]. by rewrite Hok.
Qed.

(** X18.  [updateTask] and [deleteTask] send PUT (with the data) and DELETE
    (with no body) to [/api/tasks/<id>]; a response that is not ok becomes an
    error that names the id, an ok response is parsed and returned, and a
    failure of [fetch] is thrown on. *)
Theorem updateTask_deleteTask_outcomes (id taskData : value) (s : string) :
  interpolate id = Ok s →
  let put := Client.fetch_with n ("/api/tasks/" +:+ s)
               (Client.Init "PUT" [("Content-Type", "application/json")] (Some taskData)) in
  let del := Client.fetch_with n ("/api/tasks/" +:+ s) (Client.Init "DELETE" [] None) in
  (∀ e, put = Throw e → Client.updateTask n id taskData = Throw e)
  ∧ (∀ r, put = Ok r → Client.ok r = false →
       Client.updateTask n id taskData
       = Throw (Error ("Failed to update task with ID " +:+ s)))
  ∧ (∀ r, put = Ok r → Client.ok r = true →
       Client.updateTask n id taskData = Client.json r)
  ∧ (∀ e, del = Throw e → Client.deleteTask n id = Throw e)
  ∧ (∀ r, del = Ok r → Client.ok r = false →
       Client.deleteTask n id = Throw (Error ("Failed to delete task with ID " +:+ s)))
  ∧ (∀ r, del = Ok r → Client.ok r = true → Client.deleteTask n id = Client.json r).
Proof.
  intros Hs. cbv zeta.
  assert (Client.task_url id = Ok ("/api/tasks/" +:+ s)) as Hurl.
  { unfold Client.task_url. by rewrite Hs. }
  unfold Client.updateTask, Client.deleteTask. rewrite Hurl. cbn [obind].
  repeat split.
  - by intros e ->.
  - intros r -> Hok. cbn [obind]. by rewrite Hok, Hs.
  - intros r -> Hok. cbn [obind]. by rewrite Hok.
  - by intros e ->.
  - intros r -> Hok. cbn [obind]. by rewrite Hok, Hs.
  - intros r -> Hok. cbn [obind]. by rewrite Hok.
Qed.

(** X19.  A failed list load is not silent: whenever the [try] block of
    [loadTasks] throws, the last line written to the console is the error
    line "Error loading tasks:" with the message of what was thrown, and
    the lines written before it are kept. *)
Theorem loadTasks_failure_is_logged (args : obj) (e : exn) :
  (Client.loadTasks_try w (prop args "request")).2 = Throw e →
  (Client.loadTasks w args).1
  = (Client.loadTasks_try w (prop args "request")).1
    ++ [Client.Line Client.Err "Error loading tasks:" (VStr (message e))]
  ∧ (Client.loadTasks w args).2 = Ok (VArr []).
Proof.
  intros He. unfold Client.loadTasks.
  destruct (Client.loadTasks_try w (prop args "request")) as [lines [data|e']];
    cbn [snd] in He; [discriminate|].
  by injection He as ->.
Qed.

End ClientRequests.

Lemma loadTask_falls_back_witness :
  (Client.loadTask offline (VStr "65f1a2b3c4d5e6f708192a3b")).2
  = Ok (VObj (list_to_map
                [("id", VStr "65f1a2b3c4d5e6f708192a3b");
                 ("title", VStr "Error loading task");
                 ("description", VStr ""); ("complete", VBool false)]))
  ∧ Client.loadTask (serving (Client.Response true 200 (Ok (VObj milk))))
      (VStr "65f1a2b3c4d5e6f708192a3b")
    = ([], Ok (VObj milk)).
Proof.
  split.
  - destruct (loadTask_falls_back offline (VStr "65f1a2b3c4d5e6f708192a3b")
                "65f1a2b3c4d5e6f708192a3b" eq_refl) as (_ & Hoff & _).
    by destruct (Hoff (TypeError "fetch failed") eq_refl).
  - destruct (loadTask_falls_back (serving (Client.Response true 200 (Ok (VObj milk))))
                (VStr "65f1a2b3c4d5e6f708192a3b") "65f1a2b3c4d5e6f708192a3b" eq_refl)
      as (_ & _ & _ & _ & Hgood).
    by apply (Hgood (Client.Response true 200 (Ok (VObj milk)))).
Defined.

Lemma createTask_outcomes_witness :
  Client.createTask
    (Client.Network (λ _ _, Ok (Client.Response false 404
                                  (Ok (error_body "Title is required")))))
    (VObj ∅)
  = Throw (Error "Failed to create task")
  ∧ Client.createTask (Client.Network (λ _ _, Throw (TypeError "fetch failed"))) (VObj ∅)
    = Throw (TypeError "fetch failed").
Proof.
  split.
  - destruct (createTask_outcomes
                (Client.Network (λ _ _, Ok (Client.Response false 404
                                              (Ok (error_body "Title is required")))))
                (VObj ∅)) as (_ & Hbad & _).
    by apply (Hbad (Client.Response false 404 (Ok (error_body "Title is required")))).
  - destruct (createTask_outcomes
                (Client.Network (λ _ _, Throw (TypeError "fetch failed"))) (VObj ∅))
      as (Hthrow & _).
    by apply Hthrow.
Defined.

Lemma updateTask_deleteTask_outcomes_witness :
  Client.updateTask
    (Client.Network (λ _ _, Ok (Client.Response false 500 (Ok (error_body "boom")))))
    (VStr "abc") (VObj ∅)
  = Throw (Error "Failed to update task with ID abc")
  ∧ Client.deleteTask
      (Client.Network (λ _ _, Ok (Client.Response true 200
                                    (Ok (message_body "Task deleted successfully")))))
      (VStr "abc")
    = Ok (message_body "Task deleted successfully").
Proof.
  split.
  - destruct (updateTask_deleteTask_outcomes
                (Client.Network (λ _ _, Ok (Client.Response false 500 (Ok (error_body "boom")))))
                (VStr "abc") (VObj ∅) "abc" eq_refl) as (_ & Hbad & _).
    by apply (Hbad (Client.Response false 500 (Ok (error_body "boom")))).
  - destruct (updateTask_deleteTask_outcomes
                (Client.Network (λ _ _, Ok (Client.Response true 200
                                              (Ok (message_body "Task deleted successfully")))))
                (VStr "abc") (VObj ∅) "abc" eq_refl) as (_ & _ & _ & _ & _ & Hgood).
    by rewrite (Hgood (Client.Response true 200
                         (Ok (message_body "Task deleted successfully"))) eq_refl eq_refl).
Defined.

Lemma loadTasks_failure_is_logged_witness :
  (Client.loadTasks offline (loader_args "http://localhost:5173/")).1
  = [Client.Line Client.Log "Fetching tasks from:" (VStr "/api/tasks");
     Client.Line Client.Err "Error loading tasks:" (VStr "fetch failed")].
Proof.
  destruct (loadTasks_failure_is_logged offline (loader_args "http://localhost:5173/")
              (TypeError "fetch failed") eq_refl) as [Hlines _].
  rewrite Hlines. reflexivity.
Defined.

(** ** Every way a request can end on the MongoDB server *)

Lemma insertOne_cases (doc : obj) (c : Mongo.collection) :
  doc !! "_id" = None →
  (absent (Mongo.generate (Mongo.next_id c)) (Mongo.docs c)
   ∧ Mongo.insertOne doc c =
       (Mongo.Collection
          (Mongo.docs c ++ [Mongo.to_bson <$> <["_id" := Mongo.generate (Mongo.next_id c)]> doc])
          (N.succ (Mongo.next_id c)) (tail (Mongo.faults c)),
        Ok (Mongo.generate (Mongo.next_id c))))
  ∨ ∃ (c' : Mongo.collection) (e : exn),
      Mongo.insertOne doc c = (c', Throw e) ∧ Mongo.docs c' = Mongo.docs c.
Proof.
  intros Hnone. unfold Mongo.insertOne.
  destruct (round_trip_cases c) as [Hr | [m Hr]].
  - rewrite (bind_ok _ _ _ _ _ Hr). rewrite Hnone.
    destruct c as [ds n fs].
    cbn [Mongo.after_call Mongo.with_docs Mongo.docs Mongo.next_id Mongo.faults].
    assert (prop (<["_id" := Mongo.generate n]> doc) "_id" = Mongo.generate n) as ->.
    { unfold prop. by rewrite lookup_insert_eq. }
    destruct (existsb _ ds) eqn:E.
    + right. by eexists _, _.
    + left. split; [|done]. unfold absent. apply Forall_forall. intros d Hd.
      destruct (scalar_eqb (prop d "_id") (Mongo.generate n)) eqn:Ed; [|done].
      assert (existsb (λ old : obj, scalar_eqb (prop old "_id") (Mongo.generate n)) ds = true)
        as Hex; [|congruence].
      apply existsb_exists. exists d. split; [by apply list_elem_of_In | done].
  - right. rewrite (bind_throw _ _ _ _ _ Hr). by eexists _, _.
Qed.

Lemma findOneAndUpdate_cases (q fields : obj) (c : Mongo.collection) :
  (∃ d : obj,
     Mongo.findOneAndUpdate q fields c =
       (Mongo.Collection (Mongo.alter_first (Mongo.matches q) (Mongo.apply_set fields)
                            (Mongo.docs c))
          (Mongo.next_id c) (tail (Mongo.faults c)),
        Ok (VObj (Mongo.apply_set fields d))))
  ∨ Mongo.findOneAndUpdate q fields c = (Mongo.after_call c, Ok VNull)
  ∨ ∃ m : string, Mongo.findOneAndUpdate q fields c = (Mongo.after_call c, Throw (DriverError m)).
Proof.
  unfold Mongo.findOneAndUpdate. destruct (round_trip_cases c) as [Hr | [m Hr]].
  - rewrite (bind_ok _ _ _ _ _ Hr). unfold Mongo.after_call, Mongo.with_docs.
    cbn [Mongo.docs Mongo.next_id Mongo.faults].
    destruct (head _) as [d|]; [left; by exists d | right; by left].
  - right. right. exists m. by rewrite (bind_throw _ _ _ _ _ Hr).
Qed.

Lemma alter_first_fmap {A B} (p : A → bool) (f : A → A) (g : A → B) (xs : list A) :
  (∀ x, g (f x) = g x) → g <$> Mongo.alter_first p f xs = g <$> xs.
Proof.
  intros Hg. induction xs as [|x xs IH]; cbn [Mongo.alter_first]; [done|].
  destruct (p x); rewrite !fmap_cons; [by rewrite Hg | by rewrite IH].
Qed.

Section Replies.
Context `{Host}.

(** X20.  [POST /api/tasks] ends in one of three ways, whatever the request
    (with or without a parsed body): 404 "Title is required" with the
    documents unchanged; 201 with a document that is now the last one
    stored; or, whenever the [try] block throws (no body to destructure, or
    the driver fails on the insert or on the read-back), a ReferenceError
    and no answer at all.  It never answers 500, and it never removes or
    changes a stored document. *)
Theorem post_task_replies (now later : Z) (req : request) (c : Mongo.collection) :
  ((Mongo.post_task now later req c).2 = Responded 404 (error_body "Title is required")
   ∧ (Mongo.post_task now later req c).1 = c)
  ∨ (∃ created : obj,
       (Mongo.post_task now later req c).2 = Responded 201 (VObj created)
       ∧ Mongo.docs (Mongo.post_task now later req c).1 = Mongo.docs c ++ [created])
  ∨ ((Mongo.post_task now later req c).2 = Unhandled (ReferenceError "id is not defined")
     ∧ ∃ rest : list obj,
         Mongo.docs (Mongo.post_task now later req c).1 = Mongo.docs c ++ rest).
Proof.
  unfold Mongo.post_task, handle, try_catch.
  destruct (destructure (body req)) as [b|e0] eqn:Hb;
    [rewrite bind_lift_ok
    | rewrite bind_lift_throw; right; right; cbn [fst snd];
      split; [reflexivity | exists []; by rewrite app_nil_r]].
  destruct (truthy (prop b "title")) eqn:Htitle; cbn [negb].
  - destruct (insertOne_cases
                (Mongo.new_task now later (prop b "title")
                   (prop b "description") (prop b "complete")) c
                (proj1 (new_task_no_id _ _ _ _ _))) as [[Hfresh Hins] | (c' & e & Hins & Hdocs)].
    + rewrite (bind_ok _ _ _ _ _ Hins). fold (stored_task now later b c).
      match goal with
      | |- context [bind (Mongo.findOne ?q) _ ?s] => destruct (findOne_cases q s) as [Hf | [m Hf]]
      end.
      * right. left. exists (stored_task now later b c).
        rewrite (bind_ok _ _ _ _ _ Hf). unfold ret, Mongo.after_call.
        cbn [Mongo.docs Mongo.next_id Mongo.faults fst snd].
        rewrite List.filter_app, (filter_none _ _ (absent_no_match _ _ Hfresh)).
        cbn [List.filter app]. rewrite matches_singleton, field_matches_id.
        assert (prop (stored_task now later b c) "_id" = Mongo.generate (Mongo.next_id c))
          as ->.
        { unfold prop, stored_task. by rewrite lookup_fmap, lookup_insert_eq. }
        unfold Mongo.generate. cbn [scalar_eqb]. by rewrite String.eqb_refl.
      * right. right. rewrite (bind_throw _ _ _ _ _ Hf).
        unfold Mongo.after_call. cbn [fst snd Mongo.docs].
        split; [reflexivity|]. by eexists.
    + right. right. rewrite (bind_throw _ _ _ _ _ Hins). cbn [fst snd].
      split; [reflexivity|]. exists []. by rewrite app_nil_r.
  - left. by split.
Qed.

(** X21.  [GET /api/tasks/:id] always answers: 200 with a task that has a
    string [id], 404 "Task with ID <id> not found", or 500 "Invalid ID
    format".  It never changes the documents or the id counter. *)
Theorem get_task_replies (req : request) (c : Mongo.collection) :
  Mongo.docs (Mongo.get_task req c).1 = Mongo.docs c
  ∧ Mongo.next_id (Mongo.get_task req c).1 = Mongo.next_id c
  ∧ ((∃ (task : obj) (s : string),
        (Mongo.get_task req c).2 = Responded 200 (VObj task)
        ∧ task !! "id" = Some (VStr s)
        ∧ Mongo.is_hex24 (params_id req) = true)
     ∨ (Mongo.get_task req c).2
       = Responded 404 (error_body (not_found_text (params_id req)))
     ∨ (Mongo.get_task req c).2 = Responded 500 (error_body "Invalid ID format")).
Proof.
  unfold Mongo.get_task, handle, try_catch.
  destruct (Mongo.is_hex24 (params_id req)) eqn:Hid.
  - rewrite (ObjectId_well_formed _ Hid), (bind_ok _ _ c c _ eq_refl).
    match goal with
    | |- context [bind (Mongo.findOne ?q) _ ?s] => destruct (findOne_cases q s) as [Hf | [m Hf]]
    end.
    + rewrite (bind_ok _ _ _ _ _ Hf).
      destruct (head _) as [d|]; cbn [from_option truthy negb].
      * unfold bind, lift, ret.
        destruct (Mongo.transformTaskDocument (VObj d)) as [t|e] eqn:Et;
          cbn [fst snd Mongo.after_call Mongo.docs Mongo.next_id].
        -- destruct (transformTaskDocument_Ok_id d t Et) as (o & s & -> & Ho).
           split; [done|]. split; [done|]. left. by exists o, s.
        -- split; [done|]. split; [done|]. right. by right.
      * unfold ret. cbn [fst snd Mongo.after_call Mongo.docs Mongo.next_id].
        split; [done|]. split; [done|]. right. by left.
    + rewrite (bind_throw _ _ _ _ _ Hf). unfold ret.
      cbn [fst snd Mongo.after_call Mongo.docs Mongo.next_id].
      split; [done|]. split; [done|]. right. by right.
  - rewrite (ObjectId_malformed _ Hid), (bind_throw _ _ c c _ eq_refl). unfold ret.
    cbn [fst snd]. split; [done|]. split; [done|]. right. by right.
Qed.

(** X22.  [PUT /api/tasks/:id] always answers, with 200, 404 or 500,
    whatever the request (without a parsed body it answers 500).  It never
    adds or removes a document, and in no document does it change a
    field other than [title], [description], [complete] and [updatedAt]; in
    particular every [_id] and [createdAt] stays. *)
Theorem put_task_replies (now : Z) (req : request) (c : Mongo.collection) :
  (∃ (s : Z) (b : value),
     (Mongo.put_task now req c).2 = Responded s b ∧ (s = 200 ∨ s = 404 ∨ s = 500))
  ∧ length (Mongo.docs (Mongo.put_task now req c).1) = length (Mongo.docs c)
  ∧ ∀ f : string,
      f ≠ "title" → f ≠ "description" → f ≠ "complete" → f ≠ "updatedAt" →
      (λ d : obj, d !! f) <$> Mongo.docs (Mongo.put_task now req c).1
      = (λ d : obj, d !! f) <$> Mongo.docs c.
Proof.
  unfold Mongo.put_task, handle, try_catch.
  destruct (destructure (body req)) as [fields|e0] eqn:Hb;
    [rewrite bind_lift_ok
    | rewrite bind_lift_throw; unfold ret; cbn [fst snd];
      split; [eexists _, _; split; [done | right; by right]|]; by split].
  destruct (Mongo.ObjectId (params_id req)) as [k|e] eqn:Ek.
  - rewrite (bind_ok _ _ c c _ eq_refl).
    match goal with
    | |- context [bind (Mongo.findOneAndUpdate ?q ?fs) _ ?s] =>
        destruct (findOneAndUpdate_cases q fs s) as [[d Hu] | [Hu | [m Hu]]]
    end.
    + rewrite (bind_ok _ _ _ _ _ Hu). cbn [truthy negb]. unfold bind, lift, ret.
      destruct (Mongo.transformTaskDocument _) as [t|e]; cbn [fst snd Mongo.docs].
      * split; [eexists _, _; split; [done | by left]|].
        split.
        { rewrite <- (length_fmap (λ d : obj, d !! "_id")),
            (alter_first_fmap _ _ (λ d : obj, d !! "_id")), length_fmap; [done|].
          intros x. by apply apply_set_updateDoc. }
        intros f Ht Hd Hk Hup. apply alter_first_fmap. intros x.
        by apply apply_set_updateDoc.
      * split; [eexists _, _; split; [done | right; by right]|].
        split.
        { rewrite <- (length_fmap (λ d : obj, d !! "_id")),
            (alter_first_fmap _ _ (λ d : obj, d !! "_id")), length_fmap; [done|].
          intros x. by apply apply_set_updateDoc. }
        intros f Ht Hd Hk Hup. apply alter_first_fmap. intros x.
        by apply apply_set_updateDoc.
    + rewrite (bind_ok _ _ _ _ _ Hu). cbn [truthy negb]. unfold ret.
      cbn [fst snd Mongo.docs Mongo.after_call].
      split; [eexists _, _; split; [done | right; by left]|]. by split.
    + rewrite (bind_throw _ _ _ _ _ Hu). unfold ret.
      cbn [fst snd Mongo.docs Mongo.after_call].
      split; [eexists _, _; split; [done | right; by right]|]. by split.
  - rewrite (bind_throw _ _ c c _ eq_refl). unfold ret. cbn [fst snd].
    split; [eexists _, _; split; [done | right; by right]|]. by split.
Qed.

End Replies.

Lemma put_task_replies_witness :
  (λ d : obj, d !! "createdAt") <$>
    Mongo.docs (Mongo.put_task 2000
                  (Request "65f1a2b3c4d5e6f708192a3b" ∅
                     (VObj (<["createdAt" := VNum 0]> {[ "title" := VStr "Buy oat milk" ]})))
                  one_task).1
  = [Some (VDate 1000)].
Proof.
  destruct (put_task_replies 2000
              (Request "65f1a2b3c4d5e6f708192a3b" ∅
                 (VObj (<["createdAt" := VNum 0]> {[ "title" := VStr "Buy oat milk" ]})))
              one_task) as (_ & _ & Hkeep).
  rewrite (Hkeep "createdAt") by discriminate. reflexivity.
Defined.

(** ** Two more consequences *)

Section Consequences.
Context `{Host} (sch : Supabase.schema).

(** X23.  [DELETE /api/tasks/:id] on the Supabase server answers 200 exactly
    when the service reports no error, and the rows left are then those
    whose [id] is not the key (all of them when none matched); when the
    service fails the answer is 500 with the service's message, when the id
    is not valid for the column it is 500 as well, and in both cases the
    rows are unchanged.  It never answers 404. *)
Theorem supabase_delete_task_outcomes (req : request) (t : Supabase.table) :
  (status_of (Supabase.delete_task sch req t).2 = Some 200
   ∨ status_of (Supabase.delete_task sch req t).2 = Some 500)
  ∧ (status_of (Supabase.delete_task sch req t).2 = Some 200
     ↔ next_ok (Supabase.faults t) = true
       ∧ is_Some (Supabase.key_parse sch (params_id req)))
  ∧ (∀ k : value,
       next_ok (Supabase.faults t) = true →
       Supabase.key_parse sch (params_id req) = Some k →
       (Supabase.delete_task sch req t).2
         = Responded 200 (message_body "Task deleted successfully")
       ∧ Supabase.rows (Supabase.delete_task sch req t).1
         = List.filter (λ row, negb (Supabase.column_is "id" k row)) (Supabase.rows t))
  ∧ (next_ok (Supabase.faults t) = true →
     Supabase.key_parse sch (params_id req) = None →
     (∃ m : string, (Supabase.delete_task sch req t).2 = Responded 500 (error_body m))
     ∧ Supabase.rows (Supabase.delete_task sch req t).1 = Supabase.rows t)
  ∧ (∀ (m : string) (rest : list (option string)),
       Supabase.faults t = Some m :: rest →
       (Supabase.delete_task sch req t).2 = Responded 500 (error_body m)
       ∧ Supabase.rows (Supabase.delete_task sch req t).1 = Supabase.rows t).
Proof.
  unfold Supabase.delete_task, handle, Supabase.delete_rows.
  destruct (supabase_round_trip_cases (λ t, (t, Supabase.invalid_key)) t)
    as [Hok | (m & rest & Hf)].
  - destruct (Supabase.key_parse sch (params_id req)) as [k|] eqn:Ek.
    + erewrite bind_ok; [| rewrite (supabase_round_trip_ok _ t Hok); reflexivity].
      cbn [Supabase.error Supabase.with_rows Supabase.rows fst snd ret status_of].
      split; [by left|]. split; [split; [intros _; by split | done]|].
      split; [intros k' _ [= <-]; by split|].
      split; [discriminate|].
      intros m rest Hf. rewrite Hf in Hok. discriminate.
    + erewrite bind_ok; [| rewrite (supabase_round_trip_ok _ t Hok); reflexivity].
      unfold Supabase.invalid_key. cbn [Supabase.error]. unfold ret.
      cbn [fst snd Supabase.rows status_of].
      split; [by right|].
      split; [split; [discriminate | intros [_ [k Hk]]; discriminate]|].
      split; [intros k' _; discriminate|].
      split; [intros _ _; split; [by eexists | done]|].
      intros m rest Hf. rewrite Hf in Hok. discriminate.
  - rewrite (bind_ok _ _ _ _ _ (supabase_round_trip_fault _ t m rest Hf)).
    cbn [Supabase.error]. unfold ret. cbn [fst snd Supabase.rows status_of].
    split; [by right|].
    split; [split; [discriminate | intros [Hok _]; rewrite Hf in Hok; discriminate]|].
    split; [intros k' Hok; rewrite Hf in Hok; discriminate|].
    split; [intros Hok; rewrite Hf in Hok; discriminate|].
    intros m' rest' Hf'. rewrite Hf in Hf'. injection Hf' as <- _. by split.
Qed.

(** X24.  PUT has no defaults: after a PUT whose body was parsed into an
    object that omits [complete], on the only stored task, the task's
    [complete] is [null], and [GET /api/tasks?complete=<v>] answers with an
    empty list for every [v], "true" and "false" alike. *)
Theorem put_without_complete_unlists (now : Z) (req lst : request) (b : obj)
    (c : Mongo.collection) (d : obj) (v : value) :
  body req = VObj b →
  Mongo.is_hex24 (params_id req) = true →
  next_ok (Mongo.faults c) = true →
  next_ok (tail (Mongo.faults c)) = true →
  Mongo.docs c = [d] →
  prop d "_id" = VOid (string_map lower_hex (params_id req)) →
  b !! "complete" = None →
  query lst !! "complete" = Some v → v ≠ VUndef →
  status_of (Mongo.put_task now req c).2 = Some 200
  ∧ (∃ d' : obj, Mongo.docs (Mongo.put_task now req c).1 = [d']
                 ∧ d' !! "complete" = Some VNull)
  ∧ (Mongo.get_tasks lst (Mongo.put_task now req c).1).2 = Responded 200 (VArr []).
Proof.
  intros Hb Hid Hok1 Hok2 Hdocs Hd Hbody Hq Hv.
  rewrite (put_task_found now req b c [] [] d Hb Hid Hok1 Hdocs ltac:(constructor) Hd).
  cbn [fst snd status_of app]. split; [done|].
  destruct (apply_set_updateDoc now (prop b "title")
              (prop b "description") (prop b "complete") d)
    as (_ & _ & Hk & _).
  rewrite (prop_lookup_None _ _ Hbody) in Hk. cbn [Mongo.to_bson] in Hk.
  split.
  { eexists. split; [reflexivity|]. rewrite (prop_lookup_None _ _ Hbody). exact Hk. }
  erewrite get_tasks_run; [done | done |].
  rewrite (list_filter_present _ _ Hq Hv). cbn [Mongo.docs List.filter].
  rewrite matches_singleton.
  unfold prop at 1. rewrite (prop_lookup_None _ _ Hbody), Hk. reflexivity.
Qed.

End Consequences.

Lemma supabase_delete_task_outcomes_witness :
  Supabase.rows (Supabase.delete_task bigint_schema (Request "1" ∅ VUndef) one_row).1 = []
  ∧ status_of (Supabase.delete_task bigint_schema (Request "abc" ∅ VUndef) one_row).2
    = Some 500
  ∧ Supabase.rows (Supabase.delete_task bigint_schema (Request "abc" ∅ VUndef) one_row).1
    = Supabase.rows one_row.
Proof.
  split.
  - destruct (supabase_delete_task_outcomes bigint_schema (Request "1" ∅ VUndef) one_row)
      as (_ & _ & Hdel & _).
    destruct (Hdel (VNum 1)) as [_ Hrows]; [reflexivity | reflexivity|].
    rewrite Hrows. reflexivity.
  - destruct (supabase_delete_task_outcomes bigint_schema (Request "abc" ∅ VUndef) one_row)
      as (_ & _ & _ & Hbad & _).
    destruct Hbad as [[m Hm] Hrows]; [reflexivity | reflexivity|].
    rewrite Hm, Hrows. by split.
Defined.

Lemma put_without_complete_unlists_witness :
  (Mongo.get_tasks (Request "" {[ "complete" := VStr "false" ]} VUndef)
     (Mongo.put_task 2000
        (Request "65f1a2b3c4d5e6f708192a3b" ∅ (VObj {[ "title" := VStr "Buy oat milk" ]}))
        one_task).1).2
  = Responded 200 (VArr []).
Proof.
  apply (put_without_complete_unlists 2000
           (Request "65f1a2b3c4d5e6f708192a3b" ∅ (VObj {[ "title" := VStr "Buy oat milk" ]}))
           (Request "" {[ "complete" := VStr "false" ]} VUndef)
           {[ "title" := VStr "Buy oat milk" ]} one_task milk (VStr "false")).
  - reflexivity.
  - reflexivity.
  - reflexivity.
  - reflexivity.
  - reflexivity.
  - reflexivity.
  - reflexivity.
  - reflexivity.
  - discriminate.
Defined.
